(** * completion.py: request pipelines and response renderers

    A shallow embedding of [src/completion.py]: the two request pipelines
    ([generate_completion_response], [generate_image_response]) and the two
    renderers ([process_response], [process_image_response]).

    Python values are an inductive type, exceptions are an error result, and
    the observable effects (the HTTP request, the logger call, the sends to
    the Discord thread or channel) are recorded in a trace of events.  What
    the module imports from elsewhere ([Message], [aiohttp], the constants,
    [split_into_shorter_messages], [discord_image], [close_thread]) is a
    collaborator, gathered in the class [Env]. *)

From Stdlib Require Import String Ascii List ZArith Bool Lia Floats DecimalString.
Import ListNotations.
Open Scope string_scope.

(** ** Python values

    The values the module handles are what [r.json()] produces, plus the
    strings built from exceptions.  A dict keeps its items in insertion
    order; float payloads are IEEE doubles; a str is held as the bytes of
    its UTF-8 encoding. *)

#[local] Set Warnings "-register-all".

Inductive value : Type :=
| VNone
| VBool (b : bool)
| VInt (n : Z)
| VFloat (f : float)
| VStr (s : string)
| VList (l : list value)
| VDict (d : list (string * value)).

(** The subscripts written in the source: string literals and the integer 0. *)
Inductive key : Type :=
| KStr (s : string)
| KInt (i : Z).

Definition value_of_key (k : key) : value :=
  match k with
  | KStr s => VStr s
  | KInt i => VInt i
  end.

(** ** Exceptions *)

Inductive exception : Type :=
| KeyError (k : key)
| IndexError (msg : string)
| TypeError (msg : string)
| AttributeError (msg : string)
| OtherException (cls : string) (msg : string)
    (* any other subclass of Exception: aiohttp.ClientError,
       ContentTypeError, json.JSONDecodeError, binascii.Error, ... *)
| OnlyBaseException (cls : string) (msg : string).
    (* derives from BaseException but not from Exception:
       asyncio.CancelledError, KeyboardInterrupt, SystemExit *)

(** [isinstance(e, Exception)], what [except Exception] tests. *)
Definition is_Exception (e : exception) : bool :=
  match e with
  | OnlyBaseException _ _ => false
  | _ => true
  end.

Inductive outcome (A : Type) : Type :=
| Return (a : A)
| Raise (e : exception).
Arguments Return {A} a.
Arguments Raise {A} e.

(** ** Data model of the module *)

Inductive CompletionResult : Type :=
| OK
| TOO_LONG
| ERROR.

(** [Optional[str]] fields hold [VNone] when absent.  Python does not
    enforce the annotation: the fields hold whatever value is stored. *)
Record CompletionData : Type := mkCompletionData {
  status : CompletionResult;
  reply_text : value;
  status_text : value
}.

Record ImageCompletionData : Type := mkImageCompletionData {
  istatus : CompletionResult;
  image64 : value;
  istatus_text : value
}.

(** ** The outside world *)

Record request : Type := mkRequest {
  url : string;
  json : value;
  auth : string * string    (* aiohttp.BasicAuth(login, password) *)
}.

(** What [session.post] gives: an exception, or a response with its status
    and what [await r.json()] does on it. *)
Inductive http_outcome : Type :=
| PostRaises (e : exception)
| Response (status_code : Z) (body : outcome value).

Inductive stream : Type :=
| StringIO (s : string)
| BytesIO (b : list Byte.byte).

Record File : Type := mkFile {
  fp : stream;
  filename : string
}.

Inductive Color : Type :=
| yellow.

Record Embed : Type := mkEmbed {
  description : string;
  color : Color
}.

(** A thread or a text channel, by its id. *)
Definition Messageable : Type := Z.

Inductive event : Type :=
| Post (req : request)                          (* session.post(...) *)
| LogException (e : exception)                  (* logger.exception(e) *)
| Send (target : Messageable) (content : string)    (* target.send(r) *)
| SendFile (target : Messageable) (file : File)     (* target.send(file=file) *)
| SendEmbed (target : Messageable) (embed : Embed)  (* target.send(embed=...) *)
| CloseThread (thread : Messageable).           (* close_thread(thread) *)

(** The collaborators: everything [completion.py] imports. *)
Class Env : Type := mkEnv {
  Message : Type;
  render : Message -> outcome value;                         (* src.base *)
  post : request -> http_outcome;                            (* aiohttp *)
  OPENAI_API_KEY : string;                                   (* src.constants *)
  OPENAI_API_URL : string;
  OPENAI_MODEL : string;
  MAX_CHARS_PER_REPLY_MSG : Z;
  DALLE_API_URL : string;
  DALLE_MODEL : string;
  split_into_shorter_messages : value -> outcome (list string);  (* src.utils *)
  discord_image : value -> outcome File;
  py_repr : value -> string                                  (* builtin repr *)
}.

(** ** Computations with a trace and exceptions *)

Definition M (A : Type) : Type := outcome A * list event.

Definition ret {A : Type} (a : A) : M A := (Return a, []).

Definition raise {A : Type} (e : exception) : M A := (Raise e, []).

Definition lift {A : Type} (o : outcome A) : M A := (o, []).

Definition emit (ev : event) : M unit := (Return tt, [ev]).

Definition bind {A B : Type} (m : M A) (f : A -> M B) : M B :=
  match m with
  | (Return a, t) => let (r, t') := f a in (r, (t ++ t')%list)
  | (Raise e, t) => (Raise e, t)
  end.

Notation "x <- m ;; k" := (bind m (fun x => k))
  (at level 61, m at next level, right associativity).
Notation "m ;;; k" := (bind m (fun _ => k))
  (at level 61, right associativity).

(** [try: body  except Exception as e: handler e]. *)
Definition try_except {A : Type} (body : M A) (handler : exception -> M A) : M A :=
  match body with
  | (Return a, t) => (Return a, t)
  | (Raise e, t) =>
      if is_Exception e
      then let (r, t') := handler e in (r, (t ++ t')%list)
      else (Raise e, t)
  end.

(** [[f(x) for x in xs]]: left to right, the first exception ends it. *)
Fixpoint comprehension {A B : Type} (f : A -> M B) (xs : list A) : M (list B) :=
  match xs with
  | [] => ret []
  | x :: xs' =>
      y <- f x ;;
      ys <- comprehension f xs' ;;
      ret (y :: ys)
  end.

(** [for x in xs: body x]. *)
Fixpoint for_each {A : Type} (xs : list A) (body : A -> M unit) : M unit :=
  match xs with
  | [] => ret tt
  | x :: xs' => body x ;;; for_each xs' body
  end.

(** ** Python built-ins used by the module *)

Fixpoint dict_get (d : list (string * value)) (k : string) : option value :=
  match d with
  | [] => None
  | (k', v) :: d' => if String.eqb k' k then Some v else dict_get d' k
  end.

(** Position of index [i] in a sequence of length [n], negative indices
    counting from the end. *)
Definition seq_index (n : nat) (i : Z) : option nat :=
  if (0 <=? i)%Z && (i <? Z.of_nat n)%Z then Some (Z.to_nat i)
  else if (- Z.of_nat n <=? i)%Z && (i <? 0)%Z then Some (Z.to_nat (Z.of_nat n + i))
  else None.

Definition type_name (v : value) : string :=
  match v with
  | VNone => "NoneType"
  | VBool _ => "bool"
  | VInt _ => "int"
  | VFloat _ => "float"
  | VStr _ => "str"
  | VList _ => "list"
  | VDict _ => "dict"
  end.

(** A str is held as the bytes of its UTF-8 encoding: a character (a code
    point) is a leading byte followed by its continuation bytes, those of
    the form [10xxxxxx]. *)
Definition is_continuation (c : ascii) : bool :=
  match c with
  | Ascii _ _ _ _ _ _ b6 b7 => b7 && negb b6
  end.

(** The characters of a str, in order, each as the str of length 1 it is
    in Python. *)
Fixpoint str_chars (s : string) : list string :=
  match s with
  | EmptyString => []
  | String c s' =>
      let rest := str_chars s' in
      match s', rest with
      | String c' _, h :: tl =>
          if is_continuation c' then String c h :: tl
          else String c EmptyString :: rest
      | _, _ => String c EmptyString :: rest
      end
  end.

(** [len(s)] for a str: the number of its characters, not of its bytes. *)
Definition len (s : string) : Z := Z.of_nat (List.length (str_chars s)).

(** [v[k]].  The messages are CPython's. *)
Definition getitem (v : value) (k : key) : outcome value :=
  match v, k with
  | VDict d, KStr s =>
      match dict_get d s with
      | Some x => Return x
      | None => Raise (KeyError k)
      end
  | VDict d, KInt _ => Raise (KeyError k)   (* the keys of a JSON object are strings *)
  | VList l, KInt i =>
      match seq_index (List.length l) i with
      | Some n =>
          match nth_error l n with
          | Some x => Return x
          | None => Raise (IndexError "list index out of range")
          end
      | None => Raise (IndexError "list index out of range")
      end
  | VList _, KStr _ =>
      Raise (TypeError "list indices must be integers or slices, not str")
  | VStr s, KInt i =>
      match seq_index (List.length (str_chars s)) i with
      | Some n =>
          match nth_error (str_chars s) n with
          | Some c => Return (VStr c)
          | None => Raise (IndexError "string index out of range")
          end
      | None => Raise (IndexError "string index out of range")
      end
  | VStr _, KStr _ =>
      Raise (TypeError "string indices must be integers, not 'str'")
  | _, _ =>
      Raise (TypeError ("'" ++ type_name v ++ "' object is not subscriptable"))
  end.

(** [v.get(k, default)]: only a dict has the method. *)
Definition get_method (v : value) (k : string) (default : value) : outcome value :=
  match v with
  | VDict d =>
      match dict_get d k with
      | Some x => Return x
      | None => Return default
      end
  | _ => Raise (AttributeError ("'" ++ type_name v ++ "' object has no attribute 'get'"))
  end.

(** [v == s] for a str literal [s]: only an equal str is equal to it. *)
Definition eq_str (v : value) (s : string) : bool :=
  match v with
  | VStr s' => String.eqb s' s
  | _ => false
  end.

(** [bool(v)], as [not v] and [if v] use it. *)
Definition truthy (v : value) : bool :=
  match v with
  | VNone => false
  | VBool b => b
  | VInt n => negb (n =? 0)%Z
  | VFloat f => negb (PrimFloat.eqb f PrimFloat.zero)
  | VStr s => negb (String.eqb s "")
  | VList l => match l with [] => false | _ => true end
  | VDict d => match d with [] => false | _ => true end
  end.


Section Program.
Context `{E : Env}.

(** [str(v)]: a str is itself, the other values print as their repr. *)
Definition py_str (v : value) : string :=
  match v with
  | VStr s => s
  | _ => py_repr v
  end.

(** [str(e)]: a KeyError prints the repr of its key, the others their message. *)
Definition str_exception (e : exception) : string :=
  match e with
  | KeyError k => py_repr (value_of_key k)
  | IndexError msg => msg
  | TypeError msg => msg
  | AttributeError msg => msg
  | OtherException _ msg => msg
  | OnlyBaseException _ msg => msg
  end.

(** [async with session.post(...) as r]: one request, then the response. *)
Definition session_post (req : request) : M (Z * outcome value) :=
  emit (Post req) ;;;
  match post req with
  | PostRaises e => raise e
  | Response st body => ret (st, body)
  end.

Definition context_length_exceeded : string := "context_length_exceeded".

(** The arguments of [session.post] in [generate_completion_response]. *)
Definition completion_request (messages' : list value) : request :=
  {| url := OPENAI_API_URL;
     json := VDict [("model", VStr OPENAI_MODEL); ("messages", VList messages')];
     auth := ("", OPENAI_API_KEY) |}.

(** The [try] block of [generate_completion_response]. *)
Definition generate_completion_try (messages : list Message) : M CompletionData :=
  messages' <- comprehension (fun message => lift (render message)) messages ;;
  r <- session_post (completion_request messages') ;;
  if (fst r =? 200)%Z then
    js <- lift (snd r) ;;
    choices <- lift (getitem js (KStr "choices")) ;;
    choice <- lift (getitem choices (KInt 0)) ;;
    message <- lift (getitem choice (KStr "message")) ;;
    reply <- lift (getitem message (KStr "content")) ;;
    ret {| status := OK; reply_text := reply; status_text := VNone |}
  else
    js <- lift (snd r) ;;
    error <- lift (getitem js (KStr "error")) ;;
    code <- lift (getitem error (KStr "code")) ;;
    let status := if eq_str code context_length_exceeded then TOO_LONG else ERROR in
    ret {| status := status; reply_text := VNone; status_text := js |}.

Definition generate_completion_response (messages : list Message) : M CompletionData :=
  try_except (generate_completion_try messages)
    (fun e =>
       emit (LogException e) ;;;
       ret {| status := ERROR; reply_text := VNone;
              status_text := VStr (str_exception e) |}).

(** The arguments of [session.post] in [generate_image_response]. *)
Definition image_request (prompt' : value) : request :=
  {| url := DALLE_API_URL;
     json := VDict [("prompt", prompt');
                    ("n", VInt 1);
                    ("size", VStr "256x256");
                    ("response_format", VStr "b64_json");
                    ("model", VStr DALLE_MODEL)];
     auth := ("", OPENAI_API_KEY) |}.

(** The [try] block of [generate_image_response]. *)
Definition generate_image_try (prompt : Message) : M ImageCompletionData :=
  rendered <- lift (render prompt) ;;
  prompt' <- lift (get_method rendered "content" (VStr "")) ;;
  r <- session_post (image_request prompt') ;;
  if (fst r =? 200)%Z then
    js <- lift (snd r) ;;
    data <- lift (getitem js (KStr "data")) ;;
    item <- lift (getitem data (KInt 0)) ;;
    reply <- lift (getitem item (KStr "b64_json")) ;;
    ret {| istatus := OK; image64 := reply; istatus_text := VNone |}
  else
    js <- lift (snd r) ;;
    error <- lift (getitem js (KStr "error")) ;;
    code <- lift (getitem error (KStr "code")) ;;
    let status := if eq_str code context_length_exceeded then TOO_LONG else ERROR in
    ret {| istatus := status; image64 := VNone; istatus_text := js |}.

Definition generate_image_response (prompt : Message) : M ImageCompletionData :=
  try_except (generate_image_try prompt)
    (fun e =>
       emit (LogException e) ;;;
       ret {| istatus := ERROR; image64 := VNone;
              istatus_text := VStr (str_exception e) |}).

(** The renderers.  A [send] is an event: the sink is taken to accept it. *)
Definition process_response (thread : Messageable) (response_data : CompletionData)
  : M unit :=
  let status := status response_data in
  let reply_text := reply_text response_data in
  let status_text := status_text response_data in
  match status with
  | OK =>
      if negb (truthy reply_text) then
        emit (SendEmbed thread
                {| description := "**Invalid response** - empty response";
                   color := yellow |})
      else
        shorter_response <- lift (split_into_shorter_messages reply_text) ;;
        for_each shorter_response
          (fun r =>
             if (len r >? MAX_CHARS_PER_REPLY_MSG)%Z then
               let file := {| fp := StringIO r; filename := "message.txt" |} in
               emit (SendFile thread file)
             else
               emit (Send thread r))
  | TOO_LONG => emit (CloseThread thread)
  | ERROR =>
      emit (SendEmbed thread
              {| description := "**Error** - " ++ py_str status_text;
                 color := yellow |})
  end.

Definition process_image_response (channel : Messageable)
  (response_data : ImageCompletionData) : M unit :=
  let status := istatus response_data in
  let image64 := image64 response_data in
  let status_text := istatus_text response_data in
  match status with
  | OK =>
      if negb (truthy image64) then
        emit (SendEmbed channel
                {| description := "**Invalid response** - empty response";
                   color := yellow |})
      else
        file <- lift (discord_image image64) ;;
        emit (SendFile channel file)
  | _ =>
      emit (SendEmbed channel
              {| description := "**Error** - " ++ py_str status_text;
                 color := yellow |})
  end.

End Program.

(** ** Reading results and traces *)


Definition is_log (ev : event) : bool :=
  match ev with
  | LogException _ => true
  | _ => false
  end.

Definition is_post (ev : event) : bool :=
  match ev with
  | Post _ => true
  | _ => false
  end.

(** A call of [send] on the thread or channel, whatever it carries. *)
Definition is_send (ev : event) : bool :=
  match ev with
  | Send _ _ | SendFile _ _ | SendEmbed _ _ => true
  | _ => false
  end.

Definition is_close (ev : event) : bool :=
  match ev with
  | CloseThread _ => true
  | _ => false
  end.

Definition count (p : event -> bool) (t : list event) : nat :=
  List.length (filter p t).

(** The failure body of both endpoints, [{error: {code, ...}, ...}]. *)
Definition error_body (js code : value) : Prop :=
  exists d err,
    js = VDict d /\
    dict_get d "error" = Some (VDict err) /\
    dict_get err "code" = Some code.

(** The success body of the completion endpoint,
    [{choices: [{message: {content, ...}, ...}, ...], ...}]. *)
Definition choices_body (js content : value) : Prop :=
  exists d choice rest message,
    js = VDict d /\
    dict_get d "choices" = Some (VList (VDict choice :: rest)) /\
    dict_get choice "message" = Some (VDict message) /\
    dict_get message "content" = Some content.

(** The success body of the image endpoint, [{data: [{b64_json, ...}, ...], ...}]. *)
Definition data_body (js b64 : value) : Prop :=
  exists d item rest,
    js = VDict d /\
    dict_get d "data" = Some (VList (VDict item :: rest)) /\
    dict_get item "b64_json" = Some b64.

(** Every message of the sequence renders, to these wire forms. *)
Definition renders `{E : Env} (messages : list Message) (rendered : list value) : Prop :=
  Forall2 (fun m v => render m = Return v) messages rendered.


(** The thread or channel an event acts on, when it acts on one. *)
Definition target_of (ev : event) : option Messageable :=
  match ev with
  | Send target _ | SendFile target _ | SendEmbed target _ => Some target
  | CloseThread thread => Some thread
  | Post _ | LogException _ => None
  end.

(** ** Sample worlds

    Concrete collaborators to run the module on: a message is given by what
    its [render()] does, the HTTP server by a function of the request. *)
Module Sample.

(** A repr good for values whose strings hold no quote and no escape;
    floats are not printed. *)
Fixpoint repr (v : value) : string :=
  match v with
  | VNone => "None"
  | VBool true => "True"
  | VBool false => "False"
  | VInt n => NilZero.string_of_int (Z.to_int n)
  | VFloat _ => "<float>"
  | VStr s => "'" ++ s ++ "'"
  | VList l =>
      "[" ++ (fix items (l : list value) : string :=
                match l with
                | [] => ""
                | x :: l' =>
                    repr x ++ match l' with [] => "" | _ => ", " ++ items l' end
                end) l ++ "]"
  | VDict d =>
      "{" ++ (fix items (d : list (string * value)) : string :=
                match d with
                | [] => ""
                | (k, x) :: d' =>
                    "'" ++ k ++ "': " ++ repr x
                    ++ match d' with [] => "" | _ => ", " ++ items d' end
                end) d ++ "}"
  end.

(** Cuts a text at its spaces. *)
Fixpoint words (s acc : string) : list string :=
  match s with
  | EmptyString => [acc]
  | String c s' =>
      if Ascii.eqb c " "%char then acc :: words s' ""
      else words s' (acc ++ String c EmptyString)
  end.

Definition splitter (v : value) : outcome (list string) :=
  match v with
  | VStr s => Return (words s "")
  | _ => Raise (TypeError "expected string or bytes-like object")
  end.

(** Stands for the decoding: the payload's bytes, as a file. *)
Definition image (v : value) : outcome File :=
  match v with
  | VStr s => Return {| fp := BytesIO (list_byte_of_string s); filename := "image.png" |}
  | _ => Raise (TypeError "argument should be a bytes-like object or ASCII string")
  end.

Definition env (world : request -> http_outcome) : Env :=
  {| Message := outcome value;
     render := fun m => m;
     post := world;
     OPENAI_API_KEY := "sk-sample";
     OPENAI_API_URL := "https://api.openai.com/v1/chat/completions";
     OPENAI_MODEL := "gpt-3.5-turbo";
     MAX_CHARS_PER_REPLY_MSG := 4;
     DALLE_API_URL := "https://api.openai.com/v1/images/generations";
     DALLE_MODEL := "dall-e-2";
     split_into_shorter_messages := splitter;
     discord_image := image;
     py_repr := repr |}.

Definition user (content : string) : outcome value :=
  Return (VDict [("role", VStr "user"); ("content", VStr content)]).

(** The wire form of [user "hi"]. *)
Definition hi_wire : value :=
  VDict [("role", VStr "user"); ("content", VStr "hi")].

Definition too_long : value := VStr "context_length_exceeded".

(** A message whose wire form has no content field. *)
Definition bare : outcome value :=
  Return (VDict [("role", VStr "user")]).

Definition error_payload (code : value) : value :=
  VDict [("error", VDict [("message", VStr "rejected"); ("code", code)])].

Definition choices_payload (content : value) : value :=
  VDict [("choices", VList [VDict [("index", VInt 0);
                                   ("message", VDict [("role", VStr "assistant");
                                                      ("content", content)])]])].

Definition data_payload (b64 : value) : value :=
  VDict [("data", VList [VDict [("b64_json", b64)]])].

(** A server that gives the same response to every request. *)
Definition always (st : Z) (body : value) : request -> http_outcome :=
  fun _ => Response st (Return body).

(** A server that cannot be reached. *)
Definition refused : request -> http_outcome :=
  fun _ => PostRaises (OtherException "ClientConnectorError" "Cannot connect to host").

(** A server that answers [st], with a body on which [r.json()] does [body]. *)
Definition answers (st : Z) (body : outcome value) : request -> http_outcome :=
  fun _ => Response st body.

(** A request cancelled while it waits for its answer. *)
Definition cancelled : request -> http_outcome :=
  fun _ => PostRaises (OnlyBaseException "CancelledError" "").

(** A message whose [render()] raises. *)
Definition broken : outcome value :=
  Raise (OtherException "ValueError" "no author").

(** The worlds the properties below are run in. *)
Definition too_long_world : Env :=
  env (always 400 (error_payload too_long)).

Definition unreachable_world : Env := env refused.

Definition reply_world (content : value) : Env :=
  env (always 200 (choices_payload content)).

Definition image_world (b64 : value) : Env :=
  env (always 200 (data_payload b64)).

Definition rate_limited_world : Env :=
  env (always 429 (error_payload (VStr "rate_limit_exceeded"))).

Definition empty_choices_world : Env :=
  env (always 200 (VDict [("choices", VList [])])).

Definition html_error : exception :=
  OtherException "ContentTypeError" "unexpected mimetype: text/html".

Definition unreadable_world : Env := env (answers 502 (Raise html_error)).

Definition cancelled_world : Env := env cancelled.

End Sample.

(** ** Laws of the computations *)

Section Laws.
Context `{E : Env}.

Lemma bind_Return {A B : Type} (a : A) (t : list event) (f : A -> M B) :
  bind (Return a, t) f = (fst (f a), (t ++ snd (f a))%list).
Proof.
  unfold bind. destruct (f a) as [r t']. reflexivity.
Qed.

Lemma bind_Return_nil {A B : Type} (a : A) (f : A -> M B) :
  bind (Return a, []) f = f a.
Proof.
  rewrite bind_Return. destruct (f a) as [r t']. reflexivity.
Qed.

Lemma bind_Raise {A B : Type} (e : exception) (t : list event) (f : A -> M B) :
  bind (Raise e, t) f = (Raise e, t).
Proof. reflexivity. Qed.

Lemma bind_emit {B : Type} (ev : event) (f : unit -> M B) :
  bind (emit ev) f = (fst (f tt), ev :: snd (f tt)).
Proof.
  unfold bind, emit. destruct (f tt) as [r t]. reflexivity.
Qed.

Lemma eq_str_spec (v : value) (s : string) :
  eq_str v s = true <-> v = VStr s.
Proof.
  destruct v; simpl; try (split; [discriminate | intros H; inversion H]).
  rewrite String.eqb_eq. split; intros H.
  - now subst.
  - now inversion H.
Qed.

Lemma eq_str_false (v : value) (s : string) :
  eq_str v s = false <-> v <> VStr s.
Proof.
  rewrite <- eq_str_spec. destruct (eq_str v s); split; congruence.
Qed.

(** A comprehension over [render] sends nothing and, when every message
    renders, gives the wire forms in order. *)
Lemma comprehension_renders (messages : list Message) (rendered : list value) :
  renders messages rendered ->
  comprehension (fun message => lift (render message)) messages
  = (Return rendered, []).
Proof.
  induction 1 as [| m v ms vs Hm _ IH]; cbn [comprehension].
  - reflexivity.
  - unfold lift at 1. rewrite Hm, bind_Return_nil, IH. reflexivity.
Qed.

Lemma comprehension_lift_trace {A B : Type} (f : A -> outcome B) (xs : list A) :
  snd (comprehension (fun x => lift (f x)) xs) = [].
Proof.
  induction xs as [| x xs IH]; cbn [comprehension].
  - reflexivity.
  - unfold lift at 1.
    destruct (f x) as [y | e]; [rewrite bind_Return_nil | reflexivity].
    destruct (comprehension (fun x => lift (f x)) xs) as [[ys | e] t];
      simpl in IH; subst t; reflexivity.
Qed.

Lemma session_post_Response (req : request) (st : Z) (body : outcome value) :
  post req = Response st body ->
  session_post req = (Return (st, body), [Post req]).
Proof.
  intros H. unfold session_post. rewrite bind_emit, H. reflexivity.
Qed.

Lemma session_post_Raises (req : request) (e : exception) :
  post req = PostRaises e ->
  session_post req = (Raise e, [Post req]).
Proof.
  intros H. unfold session_post. rewrite bind_emit, H. reflexivity.
Qed.

(** On a str without continuation bytes (an ASCII one, for instance) the
    characters are the bytes. *)
Lemma str_chars_without_continuation (s : string) :
  (forall c, In c (list_ascii_of_string s) -> is_continuation c = false) ->
  str_chars s = map (fun c => String c EmptyString) (list_ascii_of_string s).
Proof.
  induction s as [| c s IH]; intros H; [reflexivity |].
  cbn [str_chars list_ascii_of_string map].
  rewrite IH by (intros c' Hc'; apply H; now right).
  destruct s as [| c' s']; [reflexivity |].
  cbn [list_ascii_of_string map].
  rewrite (H c') by (right; now left). reflexivity.
Qed.

Lemma len_without_continuation (s : string) :
  (forall c, In c (list_ascii_of_string s) -> is_continuation c = false) ->
  len s = Z.of_nat (String.length s).
Proof.
  intros H. unfold len. rewrite (str_chars_without_continuation s H).
  rewrite length_map. f_equal.
  clear H. induction s as [| c s IH]; cbn; [reflexivity | now rewrite IH].
Qed.

(** Three Cyrillic letters: 3 characters in 6 bytes, the first of them
    under the subscript 0. *)
Example len_of_three_cyrillic_letters :
  len "три" = 3%Z /\ String.length "три" = 6 /\
  getitem (VStr "три") (KInt 0) = Return (VStr "т") /\
  getitem (VStr "три") (KInt (-1)) = Return (VStr "и") /\
  getitem (VStr "три") (KInt 3) = Raise (IndexError "string index out of range").
Proof. repeat split; reflexivity. Qed.

(** The loop of the text renderer sends one event per chunk, in order. *)
Lemma for_each_emit {A : Type} (xs : list A) (body : A -> M unit)
  (f : A -> event) :
  (forall x, body x = emit (f x)) ->
  for_each xs body = (Return tt, map f xs).
Proof.
  intros Hbody. induction xs as [| x xs IH]; cbn [for_each].
  - reflexivity.
  - rewrite Hbody, bind_emit, IH. reflexivity.
Qed.

End Laws.

(** Runs the binds of a pipeline whose collaborators' answers are known. *)
Ltac run_pipeline :=
  repeat first
    [ rewrite bind_Return_nil
    | rewrite bind_Return
    | rewrite bind_Raise
    | progress unfold lift, ret, raise
    | progress cbn [fst snd getitem get_method app] ].

(** * Properties *)

Section Properties.
Context `{E : Env}.

(** C1.  A response whose status is not 200 and whose body is an error
    payload [{error: {code}}] is classified by the code: TOO_LONG when the
    code is ['context_length_exceeded'], ERROR for any other code; the
    payload itself is stored as the result's status text, the payload
    field is None, nothing is logged.  Both pipelines. *)
Theorem non_200_classified_by_error_code :
  (forall (messages : list Message) (rendered : list value)
          (st : Z) (js code : value),
      renders messages rendered ->
      post (completion_request rendered) = Response st (Return js) ->
      st <> 200%Z ->
      error_body js code ->
      exists d,
        generate_completion_response messages
        = (Return d, [Post (completion_request rendered)]) /\
        (code = VStr "context_length_exceeded" -> status d = TOO_LONG) /\
        (code <> VStr "context_length_exceeded" -> status d = ERROR) /\
        status_text d = js /\
        reply_text d = VNone)
  /\
  (forall (prompt : Message) (rendered prompt' : value)
          (st : Z) (js code : value),
      render prompt = Return rendered ->
      get_method rendered "content" (VStr "") = Return prompt' ->
      post (image_request prompt') = Response st (Return js) ->
      st <> 200%Z ->
      error_body js code ->
      exists d,
        generate_image_response prompt
        = (Return d, [Post (image_request prompt')]) /\
        (code = VStr "context_length_exceeded" -> istatus d = TOO_LONG) /\
        (code <> VStr "context_length_exceeded" -> istatus d = ERROR) /\
        istatus_text d = js /\
        image64 d = VNone).
Proof.
  split.
  - intros messages rendered st js code Hr Hp Hst (d & err & -> & Herr & Hcode).
    apply Z.eqb_neq in Hst.
    unfold generate_completion_response, generate_completion_try.
    rewrite (comprehension_renders _ _ Hr), bind_Return_nil.
    rewrite (session_post_Response _ _ _ Hp), bind_Return.
    cbn [fst snd]. rewrite Hst.
    run_pipeline. rewrite Herr. run_pipeline. rewrite Hcode. run_pipeline.
    eexists. split; [reflexivity |]. cbn.
    repeat split; intros H.
    + apply (eq_str_spec code context_length_exceeded) in H. now rewrite H.
    + apply (eq_str_false code context_length_exceeded) in H. now rewrite H.
  - intros prompt rendered prompt' st js code Hr Hg Hp Hst (d & err & -> & Herr & Hcode).
    apply Z.eqb_neq in Hst.
    unfold generate_image_response, generate_image_try.
    rewrite Hr. run_pipeline. rewrite Hg. run_pipeline.
    rewrite (session_post_Response _ _ _ Hp), bind_Return.
    cbn [fst snd]. rewrite Hst.
    run_pipeline. rewrite Herr. run_pipeline. rewrite Hcode. run_pipeline.
    eexists. split; [reflexivity |]. cbn.
    repeat split; intros H.
    + apply (eq_str_spec code context_length_exceeded) in H. now rewrite H.
    + apply (eq_str_false code context_length_exceeded) in H. now rewrite H.
Qed.

Lemma count_app (p : event -> bool) (t t' : list event) :
  count p (t ++ t')%list = count p t + count p t'.
Proof.
  unfold count. now rewrite filter_app, length_app.
Qed.

(** Events of a kind are absent from a computation when they are absent
    from each of its steps. *)
Lemma count_bind_0 {A B : Type} (p : event -> bool) (m : M A) (f : A -> M B) :
  count p (snd m) = 0 ->
  (forall a, count p (snd (f a)) = 0) ->
  count p (snd (bind m f)) = 0.
Proof.
  intros Hm Hf. destruct m as [[a | e] t]; cbn [snd] in Hm.
  - rewrite bind_Return. cbn [snd]. now rewrite count_app, Hm, Hf.
  - exact Hm.
Qed.

Ltac no_event :=
  repeat (apply count_bind_0; [try reflexivity | intros ?]);
  try reflexivity.

Lemma session_post_no_log (req : request) :
  count is_log (snd (session_post req)) = 0.
Proof.
  unfold session_post. no_event. destruct (post req); reflexivity.
Qed.

(** The [try] blocks send at most the request: they never log. *)
Lemma completion_try_no_log (messages : list Message) :
  count is_log (snd (generate_completion_try messages)) = 0.
Proof.
  unfold generate_completion_try.
  apply count_bind_0; [now rewrite comprehension_lift_trace | intros rendered].
  apply count_bind_0; [apply session_post_no_log | intros r].
  destruct (fst r =? 200)%Z; no_event.
Qed.

Lemma image_try_no_log (prompt : Message) :
  count is_log (snd (generate_image_try prompt)) = 0.
Proof.
  unfold generate_image_try.
  apply count_bind_0; [reflexivity | intros rendered].
  apply count_bind_0; [reflexivity | intros prompt'].
  apply count_bind_0; [apply session_post_no_log | intros r].
  destruct (fst r =? 200)%Z; no_event.
Qed.

(** C2.  An exception (an instance of [Exception]) raised anywhere in the
    [try] block of a pipeline, after the events [t], is caught: the
    pipeline returns the ERROR result whose status text is [str(e)], and
    its trace is [t] followed by the one call of [logger.exception(e)],
    the only log of the call.  A pipeline never raises an instance of
    [Exception].  Both pipelines. *)
Theorem exceptions_logged_once_and_converted :
  (forall (messages : list Message) (e : exception) (t : list event),
      generate_completion_try messages = (Raise e, t) ->
      is_Exception e = true ->
      generate_completion_response messages
      = (Return {| status := ERROR; reply_text := VNone;
                   status_text := VStr (str_exception e) |},
         (t ++ [LogException e])%list) /\
      count is_log (snd (generate_completion_response messages)) = 1)
  /\
  (forall (prompt : Message) (e : exception) (t : list event),
      generate_image_try prompt = (Raise e, t) ->
      is_Exception e = true ->
      generate_image_response prompt
      = (Return {| istatus := ERROR; image64 := VNone;
                   istatus_text := VStr (str_exception e) |},
         (t ++ [LogException e])%list) /\
      count is_log (snd (generate_image_response prompt)) = 1)
  /\
  (forall (messages : list Message) (e : exception) (t : list event),
      generate_completion_response messages = (Raise e, t) ->
      is_Exception e = false)
  /\
  (forall (prompt : Message) (e : exception) (t : list event),
      generate_image_response prompt = (Raise e, t) ->
      is_Exception e = false).
Proof.
  split; [| split; [| split]].
  - intros messages e t H He.
    pose proof (completion_try_no_log messages) as Hn.
    unfold generate_completion_response. rewrite H in *.
    cbn [try_except snd] in *. rewrite He.
    rewrite bind_emit. cbn [fst snd ret app].
    split; [reflexivity |]. now rewrite count_app, Hn.
  - intros prompt e t H He.
    pose proof (image_try_no_log prompt) as Hn.
    unfold generate_image_response. rewrite H in *.
    cbn [try_except snd] in *. rewrite He.
    rewrite bind_emit. cbn [fst snd ret app].
    split; [reflexivity |]. now rewrite count_app, Hn.
  - intros messages e t. unfold generate_completion_response.
    destruct (generate_completion_try messages) as [[d | e'] t'];
      cbn [try_except]; [discriminate |].
    destruct (is_Exception e') eqn:He.
    + rewrite bind_emit. discriminate.
    + intros H. inversion H. now subst.
  - intros prompt e t. unfold generate_image_response.
    destruct (generate_image_try prompt) as [[d | e'] t'];
      cbn [try_except]; [discriminate |].
    destruct (is_Exception e') eqn:He.
    + rewrite bind_emit. discriminate.
    + intros H. inversion H. now subst.
Qed.

(** A transport exception is raised in the [try] block, after the request. *)
Lemma transport_exception_in_try
  (messages : list Message) (rendered : list value) (e : exception) :
  renders messages rendered ->
  post (completion_request rendered) = PostRaises e ->
  generate_completion_try messages
  = (Raise e, [Post (completion_request rendered)]).
Proof.
  intros Hr Hp. unfold generate_completion_try.
  rewrite (comprehension_renders _ _ Hr), bind_Return_nil.
  now rewrite (session_post_Raises _ _ Hp).
Qed.

(** X1.  When the prompt renders and the image endpoint answers 200 with a
    body [{data: [{b64_json}]}], the image pipeline returns OK with
    [image64] the payload of the first item, whatever it is, and logs
    nothing. *)
Lemma image_ok_is_first_item_payload
  (prompt : Message) (rendered prompt' js b64 : value) :
  render prompt = Return rendered ->
  get_method rendered "content" (VStr "") = Return prompt' ->
  post (image_request prompt') = Response 200 (Return js) ->
  data_body js b64 ->
  generate_image_response prompt
  = (Return {| istatus := OK; image64 := b64; istatus_text := VNone |},
     [Post (image_request prompt')]).
Proof.
  intros Hr Hg Hp (d & item & rest & -> & Hd & Hb).
  unfold generate_image_response, generate_image_try.
  rewrite Hr. run_pipeline. rewrite Hg. run_pipeline.
  rewrite (session_post_Response _ _ _ Hp), bind_Return.
  cbn [fst snd Z.eqb Pos.eqb].
  run_pipeline. rewrite Hd. run_pipeline.
  cbn [seq_index List.length Z.leb Z.ltb Z.compare Z.of_nat andb Z.to_nat
       nth_error Pos.of_succ_nat].
  run_pipeline. rewrite Hb. run_pipeline.
  reflexivity.
Qed.

(** C3.  When every message renders and the completion endpoint answers
    200 with a body [{choices: [{message: {content}}]}], the pipeline
    returns OK with [reply_text] the content of the first choice, whatever
    that content is (the empty string and None included), and logs
    nothing.  The sequence of messages may be any, empty or not. *)
Theorem ok_reply_is_first_choice_content
  (messages : list Message) (rendered : list value) (js content : value) :
  renders messages rendered ->
  post (completion_request rendered) = Response 200 (Return js) ->
  choices_body js content ->
  generate_completion_response messages
  = (Return {| status := OK; reply_text := content; status_text := VNone |},
     [Post (completion_request rendered)]).
Proof.
  intros Hr Hp (d & choice & rest & message & -> & Hc & Hm & Hcontent).
  unfold generate_completion_response, generate_completion_try.
  rewrite (comprehension_renders _ _ Hr), bind_Return_nil.
  rewrite (session_post_Response _ _ _ Hp), bind_Return.
  cbn [fst snd Z.eqb Pos.eqb].
  run_pipeline. rewrite Hc. run_pipeline.
  cbn [seq_index List.length Z.leb Z.ltb Z.compare Z.of_nat andb Z.to_nat
       nth_error Pos.of_succ_nat].
  run_pipeline. rewrite Hm. run_pipeline. rewrite Hcontent. run_pipeline.
  reflexivity.
Qed.

(** What a computation that returned went through. *)
Lemma bind_Return_inv {A B : Type} (m : M A) (f : A -> M B) (b : B)
  (t : list event) :
  bind m f = (Return b, t) ->
  exists a t1 t2, m = (Return a, t1) /\ f a = (Return b, t2) /\ t = (t1 ++ t2)%list.
Proof.
  destruct m as [[a | e] t1]; [| discriminate].
  rewrite bind_Return. destruct (f a) as [r t2] eqn:Hf. cbn [fst snd].
  intros H. inversion H. subst. now exists a, t1, t2.
Qed.


(** Only a dict can be subscripted by a str. *)
Lemma getitem_KStr_inv (v x : value) (s : string) :
  getitem v (KStr s) = Return x ->
  exists d, v = VDict d /\ dict_get d s = Some x.
Proof.
  destruct v; try discriminate. cbn [getitem].
  destruct (dict_get d s) as [y |] eqn:Hd; [| discriminate].
  intros H. inversion H. subst. now exists d.
Qed.




(** What [try_except] returns is what the body returned, or what the
    handler returned on the exception of the body. *)
Lemma try_except_Return_inv {A : Type} (body : M A) (handler : exception -> M A)
  (a : A) (t : list event) :
  try_except body handler = (Return a, t) ->
  body = (Return a, t) \/
  exists e t1 t2, body = (Raise e, t1) /\ handler e = (Return a, t2).
Proof.
  destruct body as [[a' | e] t1]; cbn [try_except].
  - intros H. inversion H. now left.
  - destruct (is_Exception e); [| discriminate].
    destruct (handler e) as [r t2] eqn:Hh. intros H. inversion H. subst.
    right. now exists e, t1, t2.
Qed.


(** C5.  On a result classified TOO_LONG the text renderer does one thing:
    it calls [close_thread] on the thread.  It calls [send] on the thread
    for nothing. *)
Theorem too_long_closes_thread (thread : Messageable) (d : CompletionData) :
  status d = TOO_LONG ->
  process_response thread d = (Return tt, [CloseThread thread]) /\
  count is_send (snd (process_response thread d)) = 0.
Proof.
  intros H. unfold process_response. rewrite H. split; reflexivity.
Qed.

(** C6.  On an OK result whose reply text is a non-empty str, the text
    renderer sends the chunks [split_into_shorter_messages] gives, one
    [send] per chunk and in their order: a chunk longer than
    [MAX_CHARS_PER_REPLY_MSG] as the file [message.txt] holding it, any
    other chunk as a plain message. *)
Theorem ok_reply_sent_chunk_by_chunk
  (thread : Messageable) (d : CompletionData) (s : string) (chunks : list string) :
  status d = OK ->
  reply_text d = VStr s ->
  s <> "" ->
  split_into_shorter_messages (VStr s) = Return chunks ->
  process_response thread d
  = (Return tt,
     map (fun r =>
            if (len r >? MAX_CHARS_PER_REPLY_MSG)%Z
            then SendFile thread {| fp := StringIO r; filename := "message.txt" |}
            else Send thread r)
         chunks).
Proof.
  intros Hs Hr Hne Hsplit. unfold process_response. rewrite Hs, Hr.
  apply String.eqb_neq in Hne. cbn [truthy]. rewrite Hne. cbn [negb].
  rewrite Hsplit. unfold lift. rewrite bind_Return_nil.
  apply for_each_emit. intros r.
  now destruct (len r >? MAX_CHARS_PER_REPLY_MSG)%Z.
Qed.

(** C7.  On a result that is not OK the image renderer sends one notice,
    [**Error** - ] followed by the status text, and does nothing else: it
    closes nothing, and TOO_LONG is rendered as ERROR is. *)
Theorem image_failure_sends_error_notice
  (channel : Messageable) (d : ImageCompletionData) :
  istatus d <> OK ->
  process_image_response channel d
  = (Return tt,
     [SendEmbed channel
        {| description := "**Error** - " ++ py_str (istatus_text d);
           color := yellow |}]) /\
  count is_close (snd (process_image_response channel d)) = 0 /\
  process_image_response channel
    {| istatus := TOO_LONG; image64 := image64 d; istatus_text := istatus_text d |}
  = process_image_response channel
      {| istatus := ERROR; image64 := image64 d; istatus_text := istatus_text d |}.
Proof.
  intros H. unfold process_image_response.
  destruct (istatus d); [congruence | |]; repeat split; reflexivity.
Qed.

(** C8.  On an OK result whose payload is empty (the empty string, None, or
    any other false value) both renderers send the same single notice,
    [**Invalid response** - empty response], and nothing else. *)
Theorem empty_payload_sends_invalid_notice :
  (forall (thread : Messageable) (d : CompletionData),
      status d = OK ->
      truthy (reply_text d) = false ->
      process_response thread d
      = (Return tt,
         [SendEmbed thread
            {| description := "**Invalid response** - empty response";
               color := yellow |}]))
  /\
  (forall (channel : Messageable) (d : ImageCompletionData),
      istatus d = OK ->
      truthy (image64 d) = false ->
      process_image_response channel d
      = (Return tt,
         [SendEmbed channel
            {| description := "**Invalid response** - empty response";
               color := yellow |}])).
Proof.
  split.
  - intros thread d Hs Ht. unfold process_response. now rewrite Hs, Ht.
  - intros channel d Hs Ht. unfold process_image_response. now rewrite Hs, Ht.
Qed.

(** C9.  On an OK result whose payload is a non-empty str that
    [discord_image] decodes to a file, the image renderer sends that file,
    once, and nothing else. *)
Theorem image_sent_as_one_file
  (channel : Messageable) (d : ImageCompletionData) (b64 : string) (file : File) :
  istatus d = OK ->
  image64 d = VStr b64 ->
  b64 <> "" ->
  discord_image (VStr b64) = Return file ->
  process_image_response channel d = (Return tt, [SendFile channel file]) /\
  count is_send (snd (process_image_response channel d)) = 1.
Proof.
  intros Hs Hp Hne Hd. unfold process_image_response. rewrite Hs, Hp.
  apply String.eqb_neq in Hne. cbn [truthy]. rewrite Hne. cbn [negb].
  rewrite Hd. unfold lift. rewrite bind_Return_nil. split; reflexivity.
Qed.

Lemma session_post_no_post_after (req : request) :
  exists o, session_post req = (o, [Post req]).
Proof.
  unfold session_post. rewrite bind_emit.
  destruct (post req); eexists; reflexivity.
Qed.

(** C10.  When the mapping [render()] returns has no ['content'] key, the
    extraction gives the empty string instead of failing, and the image
    pipeline still issues its one request, with the empty string as
    prompt. *)
Theorem missing_content_gives_empty_prompt
  (prompt : Message) (d : list (string * value)) :
  render prompt = Return (VDict d) ->
  dict_get d "content" = None ->
  get_method (VDict d) "content" (VStr "") = Return (VStr "") /\
  getitem (json (image_request (VStr ""))) (KStr "prompt") = Return (VStr "") /\
  exists o t,
    generate_image_response prompt = (o, Post (image_request (VStr "")) :: t) /\
    count is_post t = 0.
Proof.
  intros Hr Hd.
  assert (Hg : get_method (VDict d) "content" (VStr "") = Return (VStr ""))
    by (cbn [get_method]; now rewrite Hd).
  split; [exact Hg |]. split; [reflexivity |].
  pose proof (image_try_no_log prompt) as Hn.
  unfold generate_image_response.
  assert (Ht : exists o t, generate_image_try prompt
                           = (o, Post (image_request (VStr "")) :: t) /\
                           count is_post t = 0).
  { unfold generate_image_try. rewrite Hr. unfold lift at 1.
    rewrite bind_Return_nil, Hg. unfold lift at 1. rewrite bind_Return_nil.
    destruct (session_post_no_post_after (image_request (VStr ""))) as [[r | e] Hp];
      rewrite Hp.
    - rewrite bind_Return. do 2 eexists. split; [reflexivity |].
      cbn [app]. destruct (fst r =? 200)%Z.
      + apply (count_bind_0 is_post); [reflexivity | intros js]. no_event.
      + apply (count_bind_0 is_post); [reflexivity | intros js]. no_event.
    - do 2 eexists. split; reflexivity. }
  destruct Ht as (o & t & -> & Hc).
  destruct o as [r | e]; cbn [try_except].
  - now exists (Return r), t.
  - destruct (is_Exception e).
    + rewrite bind_emit. cbn [fst snd ret app].
      do 2 eexists. split; [reflexivity |]. now rewrite count_app, Hc.
    + now exists (Raise e), t.
Qed.

End Properties.

(** * The properties at work in the sample worlds *)

Section Witnesses.
Import Sample.

(** A 400 answer with the context-length code, to each pipeline. *)
Lemma non_200_classified_by_error_code_witness :
  (exists d,
      generate_completion_response (E := too_long_world) [user "hi"]
      = (Return d, [Post (completion_request (E := too_long_world) [hi_wire])]) /\
      status d = TOO_LONG /\ status_text d = error_payload too_long)
  /\
  (exists d,
      generate_image_response (E := too_long_world) (user "hi")
      = (Return d, [Post (image_request (E := too_long_world) (VStr "hi"))]) /\
      istatus d = TOO_LONG /\ istatus_text d = error_payload too_long).
Proof.
  split.
  - destruct (proj1 (@non_200_classified_by_error_code too_long_world)
                [user "hi"] [hi_wire] 400%Z (error_payload too_long) too_long)
      as (d & Hrun & Hlong & _ & Htext & _).
    + repeat constructor.
    + reflexivity.
    + discriminate.
    + do 2 eexists. repeat split; reflexivity.
    + exists d. repeat split; [exact Hrun | now apply Hlong | exact Htext].
  - destruct (proj2 (@non_200_classified_by_error_code too_long_world)
                (user "hi") hi_wire (VStr "hi") 400%Z
                (error_payload too_long) too_long)
      as (d & Hrun & Hlong & _ & Htext & _).
    + reflexivity.
    + reflexivity.
    + reflexivity.
    + discriminate.
    + do 2 eexists. repeat split; reflexivity.
    + exists d. repeat split; [exact Hrun | now apply Hlong | exact Htext].
Defined.

(** A refused connection, to the completion pipeline. *)
Lemma exceptions_logged_once_and_converted_witness :
  generate_completion_response (E := unreachable_world) [user "hi"]
  = (Return {| status := ERROR; reply_text := VNone;
               status_text := VStr "Cannot connect to host" |},
     [Post (completion_request (E := unreachable_world) [hi_wire]);
      LogException (OtherException "ClientConnectorError" "Cannot connect to host")])
  /\
  count is_log (snd (generate_completion_response (E := unreachable_world) [user "hi"]))
  = 1.
Proof.
  exact (proj1 (@exceptions_logged_once_and_converted unreachable_world)
           [user "hi"]
           (OtherException "ClientConnectorError" "Cannot connect to host")
           [Post (completion_request (E := unreachable_world) [hi_wire])]
           eq_refl eq_refl).
Defined.

(** A 200 answer whose first choice has the empty string as content. *)
Lemma ok_reply_is_first_choice_content_witness :
  generate_completion_response (E := reply_world (VStr "")) [user "hi"]
  = (Return {| status := OK; reply_text := VStr ""; status_text := VNone |},
     [Post (completion_request (E := reply_world (VStr "")) [hi_wire])]).
Proof.
  apply (@ok_reply_is_first_choice_content (reply_world (VStr ""))
           [user "hi"] [hi_wire] (choices_payload (VStr "")) (VStr "")).
  - repeat constructor.
  - reflexivity.
  - do 4 eexists. repeat split; reflexivity.
Defined.



Lemma too_long_closes_thread_witness :
  process_response (E := too_long_world) 7%Z
    {| status := TOO_LONG; reply_text := VNone;
       status_text := error_payload too_long |}
  = (Return tt, [CloseThread 7%Z]).
Proof.
  exact (proj1 (@too_long_closes_thread too_long_world 7%Z
                  {| status := TOO_LONG; reply_text := VNone;
                     status_text := error_payload too_long |}
                  eq_refl)).
Defined.

(** With a limit of 4 characters, the chunks ["hi"] and ["три"] (3
    characters, 6 bytes) go as messages and the chunk ["there"] as a file. *)
Lemma ok_reply_sent_chunk_by_chunk_witness :
  process_response (E := reply_world (VStr "hi три there")) 7%Z
    {| status := OK; reply_text := VStr "hi три there"; status_text := VNone |}
  = (Return tt,
     [Send 7%Z "hi";
      Send 7%Z "три";
      SendFile 7%Z {| fp := StringIO "there"; filename := "message.txt" |}]).
Proof.
  apply (@ok_reply_sent_chunk_by_chunk (reply_world (VStr "hi три there")) 7%Z
           {| status := OK; reply_text := VStr "hi три there";
              status_text := VNone |}
           "hi три there" ["hi"; "три"; "there"]).
  - reflexivity.
  - reflexivity.
  - discriminate.
  - reflexivity.
Defined.

Lemma image_failure_sends_error_notice_witness :
  process_image_response (E := unreachable_world) 7%Z
    {| istatus := TOO_LONG; image64 := VNone;
       istatus_text := VStr "Cannot connect to host" |}
  = (Return tt,
     [SendEmbed 7%Z {| description := "**Error** - Cannot connect to host";
                       color := yellow |}]).
Proof.
  apply (@image_failure_sends_error_notice unreachable_world 7%Z
           {| istatus := TOO_LONG; image64 := VNone;
              istatus_text := VStr "Cannot connect to host" |}).
  discriminate.
Defined.

(** The empty string to the text renderer, None to the image renderer. *)
Lemma empty_payload_sends_invalid_notice_witness :
  process_response (E := reply_world (VStr "")) 7%Z
    {| status := OK; reply_text := VStr ""; status_text := VNone |}
  = (Return tt,
     [SendEmbed 7%Z {| description := "**Invalid response** - empty response";
                       color := yellow |}])
  /\
  process_image_response (E := image_world VNone) 7%Z
    {| istatus := OK; image64 := VNone; istatus_text := VNone |}
  = (Return tt,
     [SendEmbed 7%Z {| description := "**Invalid response** - empty response";
                       color := yellow |}]).
Proof.
  split.
  - exact (proj1 (@empty_payload_sends_invalid_notice (reply_world (VStr ""))) 7%Z
             {| status := OK; reply_text := VStr ""; status_text := VNone |}
             eq_refl eq_refl).
  - exact (proj2 (@empty_payload_sends_invalid_notice (image_world VNone)) 7%Z
             {| istatus := OK; image64 := VNone; istatus_text := VNone |}
             eq_refl eq_refl).
Defined.

Lemma image_sent_as_one_file_witness :
  process_image_response (E := image_world (VStr "aGk=")) 7%Z
    {| istatus := OK; image64 := VStr "aGk="; istatus_text := VNone |}
  = (Return tt,
     [SendFile 7%Z {| fp := BytesIO (list_byte_of_string "aGk=");
                      filename := "image.png" |}]).
Proof.
  apply (@image_sent_as_one_file (image_world (VStr "aGk=")) 7%Z
           {| istatus := OK; image64 := VStr "aGk="; istatus_text := VNone |}
           "aGk=" {| fp := BytesIO (list_byte_of_string "aGk=");
                     filename := "image.png" |}).
  - reflexivity.
  - reflexivity.
  - discriminate.
  - reflexivity.
Defined.

(** A message rendered without content, to an image endpoint that answers. *)
Lemma missing_content_gives_empty_prompt_witness :
  exists o t,
    generate_image_response (E := image_world (VStr "aGk=")) bare
    = (o, Post (image_request (E := image_world (VStr "aGk=")) (VStr "")) :: t) /\
    count is_post t = 0.
Proof.
  apply (@missing_content_gives_empty_prompt (image_world (VStr "aGk=")) bare
           [("role", VStr "user")]).
  - reflexivity.
  - reflexivity.
Defined.

End Witnesses.

(** * Further properties *)

Section Inversions.
Context `{E : Env}.

Lemma lift_inv {A : Type} (o : outcome A) (a : A) (t : list event) :
  lift o = (Return a, t) -> o = Return a /\ t = [].
Proof.
  unfold lift. intros H. inversion H. now split.
Qed.

Lemma ret_inv {A : Type} (a b : A) (t : list event) :
  ret a = (Return b, t) -> a = b /\ t = [].
Proof.
  unfold ret. intros H. inversion H. now split.
Qed.

Lemma comprehension_renders_inv (messages : list Message) (rendered : list value)
  (t : list event) :
  comprehension (fun message => lift (render message)) messages = (Return rendered, t) ->
  renders messages rendered /\ t = [].
Proof.
  revert rendered t. induction messages as [| m ms IH]; intros rendered t;
    cbn [comprehension].
  - intros H. apply ret_inv in H as [<- ->]. split; [constructor | reflexivity].
  - intros H.
    apply bind_Return_inv in H as (v & t1 & t2 & Hm & H & ->).
    apply lift_inv in Hm as [Hm ->].
    apply bind_Return_inv in H as (vs & t3 & t4 & Hms & H & ->).
    apply IH in Hms as [Hms ->].
    apply ret_inv in H as [<- ->].
    split; [now constructor | reflexivity].
Qed.

Lemma session_post_inv (req : request) (r : Z * outcome value) (t : list event) :
  session_post req = (Return r, t) ->
  post req = Response (fst r) (snd r) /\ t = [Post req].
Proof.
  unfold session_post. rewrite bind_emit.
  destruct (post req) as [e | st body]; cbn; intros H; inversion H.
  now split.
Qed.

(** Subscripting by 0 gives a dict only from a list that starts with it. *)
Lemma getitem_0_dict_inv (v : value) (c : list (string * value)) :
  getitem v (KInt 0) = Return (VDict c) ->
  exists rest, v = VList (VDict c :: rest).
Proof.
  destruct v; try discriminate; cbn [getitem].
  - destruct (seq_index (List.length (str_chars s)) 0) as [n |]; [| discriminate].
    destruct (nth_error (str_chars s) n); discriminate.
  - destruct l as [| x rest]; [discriminate |].
    cbn. intros H. inversion H. now exists rest.
Qed.

(** The [else] branch of a pipeline, when it returns. *)
Lemma error_branch_run_inv {R : Type} (mk : CompletionResult -> value -> R)
  (body : outcome value) (r : R) (t : list event) :
  (js <- lift body ;;
   error <- lift (getitem js (KStr "error")) ;;
   code <- lift (getitem error (KStr "code")) ;;
   let status := if eq_str code context_length_exceeded then TOO_LONG else ERROR in
   ret (mk status js)) = (Return r, t) ->
  exists js code,
    body = Return js /\ error_body js code /\ t = [] /\
    r = mk (if eq_str code context_length_exceeded then TOO_LONG else ERROR) js.
Proof.
  intros H.
  apply bind_Return_inv in H as (js & ? & ? & Hb & H & ->).
  apply lift_inv in Hb as [-> ->].
  apply bind_Return_inv in H as (error & ? & ? & Herr & H & ->).
  apply lift_inv in Herr as [Herr ->].
  apply bind_Return_inv in H as (code & ? & ? & Hcode & H & ->).
  apply lift_inv in Hcode as [Hcode ->].
  cbn zeta in H. apply ret_inv in H as [<- ->].
  apply getitem_KStr_inv in Herr as (d & -> & Herr).
  apply getitem_KStr_inv in Hcode as (err & -> & Hcode).
  exists (VDict d), code. repeat split; try reflexivity.
  now exists d, err.
Qed.

(** Every way the [try] block of the completion pipeline returns. *)
Lemma completion_try_run_inv (messages : list Message) (d : CompletionData)
  (t : list event) :
  generate_completion_try messages = (Return d, t) ->
  exists rendered st js,
    renders messages rendered /\
    post (completion_request rendered) = Response st (Return js) /\
    t = [Post (completion_request rendered)] /\
    ((st = 200%Z /\ choices_body js (reply_text d) /\
      status d = OK /\ status_text d = VNone)
     \/
     (st <> 200%Z /\ exists code,
         error_body js code /\
         d = {| status := if eq_str code context_length_exceeded
                          then TOO_LONG else ERROR;
                reply_text := VNone; status_text := js |})).
Proof.
  unfold generate_completion_try. intros H.
  apply bind_Return_inv in H as (rendered & ? & ? & Hr & H & ->).
  apply comprehension_renders_inv in Hr as [Hr ->].
  apply bind_Return_inv in H as ([st body] & ? & ? & Hp & H & ->).
  apply session_post_inv in Hp as [Hp ->]. cbn [fst snd] in *.
  destruct (st =? 200)%Z eqn:Hst.
  - apply Z.eqb_eq in Hst.
    apply bind_Return_inv in H as (js & ? & ? & Hb & H & ->).
    apply lift_inv in Hb as [-> ->].
    apply bind_Return_inv in H as (choices & ? & ? & Hc & H & ->).
    apply lift_inv in Hc as [Hc ->].
    apply bind_Return_inv in H as (choice & ? & ? & Hc0 & H & ->).
    apply lift_inv in Hc0 as [Hc0 ->].
    apply bind_Return_inv in H as (message & ? & ? & Hm & H & ->).
    apply lift_inv in Hm as [Hm ->].
    apply bind_Return_inv in H as (reply & ? & ? & Hreply & H & ->).
    apply lift_inv in Hreply as [Hreply ->].
    apply ret_inv in H as [<- ->].
    apply getitem_KStr_inv in Hc as (dd & -> & Hc).
    apply getitem_KStr_inv in Hm as (ch & -> & Hm).
    apply getitem_KStr_inv in Hreply as (msg & -> & Hreply).
    apply getitem_0_dict_inv in Hc0 as (rest & ->).
    exists rendered, st, (VDict dd). repeat split; try assumption.
    left. repeat split; try assumption. now exists dd, ch, rest, msg.
  - apply Z.eqb_neq in Hst.
    apply (error_branch_run_inv (fun s js => mkCompletionData s VNone js))
      in H as (js & code & -> & Hbody & -> & ->).
    exists rendered, st, js. repeat split; try assumption.
    right. split; [assumption |]. now exists code.
Qed.

(** Every way the [try] block of the image pipeline returns. *)
Lemma image_try_run_inv (prompt : Message) (d : ImageCompletionData)
  (t : list event) :
  generate_image_try prompt = (Return d, t) ->
  exists rendered prompt' st js,
    render prompt = Return rendered /\
    get_method rendered "content" (VStr "") = Return prompt' /\
    post (image_request prompt') = Response st (Return js) /\
    t = [Post (image_request prompt')] /\
    ((st = 200%Z /\ data_body js (image64 d) /\
      istatus d = OK /\ istatus_text d = VNone)
     \/
     (st <> 200%Z /\ exists code,
         error_body js code /\
         d = {| istatus := if eq_str code context_length_exceeded
                           then TOO_LONG else ERROR;
                image64 := VNone; istatus_text := js |})).
Proof.
  unfold generate_image_try. intros H.
  apply bind_Return_inv in H as (rendered & ? & ? & Hr & H & ->).
  apply lift_inv in Hr as [Hr ->].
  apply bind_Return_inv in H as (prompt' & ? & ? & Hg & H & ->).
  apply lift_inv in Hg as [Hg ->].
  apply bind_Return_inv in H as ([st body] & ? & ? & Hp & H & ->).
  apply session_post_inv in Hp as [Hp ->]. cbn [fst snd] in *.
  destruct (st =? 200)%Z eqn:Hst.
  - apply Z.eqb_eq in Hst.
    apply bind_Return_inv in H as (js & ? & ? & Hb & H & ->).
    apply lift_inv in Hb as [-> ->].
    apply bind_Return_inv in H as (data & ? & ? & Hd & H & ->).
    apply lift_inv in Hd as [Hd ->].
    apply bind_Return_inv in H as (item & ? & ? & Hi & H & ->).
    apply lift_inv in Hi as [Hi ->].
    apply bind_Return_inv in H as (reply & ? & ? & Hreply & H & ->).
    apply lift_inv in Hreply as [Hreply ->].
    apply ret_inv in H as [<- ->].
    apply getitem_KStr_inv in Hd as (dd & -> & Hd).
    apply getitem_KStr_inv in Hreply as (it & -> & Hreply).
    apply getitem_0_dict_inv in Hi as (rest & ->).
    exists rendered, prompt', st, (VDict dd). repeat split; try assumption.
    left. repeat split; try assumption. now exists dd, it, rest.
  - apply Z.eqb_neq in Hst.
    apply (error_branch_run_inv (fun s js => mkImageCompletionData s VNone js))
      in H as (js & code & -> & Hbody & -> & ->).
    exists rendered, prompt', st, js. repeat split; try assumption.
    right. split; [assumption |]. now exists code.
Qed.

End Inversions.

Section Classification.
Context `{E : Env}.

(** X2.  A pipeline returns TOO_LONG only one way: the endpoint answered
    with a status other than 200 and an error payload whose code is
    ['context_length_exceeded']; the result then carries that payload as
    status text and no payload field, and the call logged nothing. *)
Theorem too_long_only_from_error_code :
  (forall (messages : list Message) (d : CompletionData) (t : list event),
      generate_completion_response messages = (Return d, t) ->
      status d = TOO_LONG ->
      exists rendered st,
        renders messages rendered /\
        st <> 200%Z /\
        post (completion_request rendered) = Response st (Return (status_text d)) /\
        error_body (status_text d) (VStr "context_length_exceeded") /\
        reply_text d = VNone /\
        t = [Post (completion_request rendered)])
  /\
  (forall (prompt : Message) (d : ImageCompletionData) (t : list event),
      generate_image_response prompt = (Return d, t) ->
      istatus d = TOO_LONG ->
      exists rendered prompt' st,
        render prompt = Return rendered /\
        get_method rendered "content" (VStr "") = Return prompt' /\
        st <> 200%Z /\
        post (image_request prompt') = Response st (Return (istatus_text d)) /\
        error_body (istatus_text d) (VStr "context_length_exceeded") /\
        image64 d = VNone /\
        t = [Post (image_request prompt')]).
Proof.
  split.
  - intros messages d t H Hs.
    apply try_except_Return_inv in H as [H | (e & t1 & t2 & _ & H)].
    + apply completion_try_run_inv in H
        as (rendered & st & js & Hr & Hp & -> & [(_ & _ & Hok & _) | (Hst & code & Hb & ->)]);
        [congruence |].
      cbn [status status_text reply_text] in *.
      destruct (eq_str code context_length_exceeded) eqn:Hc; [| discriminate].
      apply eq_str_spec in Hc. subst code.
      exists rendered, st. now repeat split.
    + rewrite bind_emit in H. inversion H. subst. discriminate.
  - intros prompt d t H Hs.
    apply try_except_Return_inv in H as [H | (e & t1 & t2 & _ & H)].
    + apply image_try_run_inv in H
        as (rendered & prompt' & st & js & Hr & Hg & Hp & ->
            & [(_ & _ & Hok & _) | (Hst & code & Hb & ->)]);
        [congruence |].
      cbn [istatus istatus_text image64] in *.
      destruct (eq_str code context_length_exceeded) eqn:Hc; [| discriminate].
      apply eq_str_spec in Hc. subst code.
      exists rendered, prompt', st. now repeat split.
    + rewrite bind_emit in H. inversion H. subst. discriminate.
Qed.

(** X3.  A pipeline returns OK only one way: the endpoint answered 200 with
    a well-formed body ([{choices: [{message: {content}}]}] for the
    completion, [{data: [{b64_json}]}] for the image); the payload field is
    what that body holds, the status text is None, and the call logged
    nothing.  No answer with another status is ever classified OK. *)
Theorem ok_only_from_well_formed_200 :
  (forall (messages : list Message) (d : CompletionData) (t : list event),
      generate_completion_response messages = (Return d, t) ->
      status d = OK ->
      exists rendered js,
        renders messages rendered /\
        post (completion_request rendered) = Response 200 (Return js) /\
        choices_body js (reply_text d) /\
        status_text d = VNone /\
        t = [Post (completion_request rendered)])
  /\
  (forall (prompt : Message) (d : ImageCompletionData) (t : list event),
      generate_image_response prompt = (Return d, t) ->
      istatus d = OK ->
      exists rendered prompt' js,
        render prompt = Return rendered /\
        get_method rendered "content" (VStr "") = Return prompt' /\
        post (image_request prompt') = Response 200 (Return js) /\
        data_body js (image64 d) /\
        istatus_text d = VNone /\
        t = [Post (image_request prompt')]).
Proof.
  split.
  - intros messages d t H Hs.
    apply try_except_Return_inv in H as [H | (e & t1 & t2 & _ & H)].
    + apply completion_try_run_inv in H
        as (rendered & st & js & Hr & Hp & -> & [(-> & Hb & _ & Ht) | (_ & code & _ & ->)]).
      * exists rendered, js. now repeat split.
      * cbn [status] in Hs. destruct (eq_str code _); discriminate.
    + rewrite bind_emit in H. inversion H. subst. discriminate.
  - intros prompt d t H Hs.
    apply try_except_Return_inv in H as [H | (e & t1 & t2 & _ & H)].
    + apply image_try_run_inv in H
        as (rendered & prompt' & st & js & Hr & Hg & Hp & ->
            & [(-> & Hb & _ & Ht) | (_ & code & _ & ->)]).
      * exists rendered, prompt', js. now repeat split.
      * cbn [istatus] in Hs. destruct (eq_str code _); discriminate.
    + rewrite bind_emit in H. inversion H. subst. discriminate.
Qed.

End Classification.

Section Failures.
Context `{E : Env}.

Lemma bind_trace_before {A B : Type} (m : M A) (f : A -> M B) :
  (forall a, snd (f a) = []) ->
  snd (bind m f) = snd m.
Proof.
  intros Hf. destruct m as [[a | e] t]; [| reflexivity].
  rewrite bind_Return. cbn [snd]. now rewrite Hf, app_nil_r.
Qed.

Lemma bind_silent {A B : Type} (m : M A) (f : A -> M B) :
  snd m = [] ->
  (forall a, snd (f a) = []) ->
  snd (bind m f) = [].
Proof.
  intros Hm Hf. now rewrite bind_trace_before.
Qed.

Ltac silent :=
  repeat (apply bind_silent; [try reflexivity | intros ?]);
  try reflexivity.

Lemma session_post_trace (req : request) :
  snd (session_post req) = [Post req].
Proof.
  unfold session_post. rewrite bind_emit. cbn [snd].
  now destruct (post req).
Qed.

(** All a [try] block does that shows is its request. *)
Lemma completion_try_trace (messages : list Message) :
  snd (generate_completion_try messages) = [] \/
  exists rendered,
    snd (generate_completion_try messages) = [Post (completion_request rendered)].
Proof.
  unfold generate_completion_try.
  pose proof (comprehension_lift_trace render messages) as Ht.
  destruct (comprehension _ messages) as [[rendered | e] t0];
    cbn [snd] in Ht; subst t0; [| now left].
  right. exists rendered. rewrite bind_Return_nil, bind_trace_before.
  - apply session_post_trace.
  - intros r. destruct (fst r =? 200)%Z; silent.
Qed.

Lemma image_try_trace (prompt : Message) :
  snd (generate_image_try prompt) = [] \/
  exists prompt',
    snd (generate_image_try prompt) = [Post (image_request prompt')].
Proof.
  unfold generate_image_try, lift.
  destruct (render prompt) as [rendered | e]; [| now left].
  rewrite bind_Return_nil.
  destruct (get_method rendered _ _) as [prompt' | e]; [| now left].
  right. exists prompt'. rewrite bind_Return_nil, bind_trace_before.
  - apply session_post_trace.
  - intros r. destruct (fst r =? 200)%Z; silent.
Qed.

(** What [try_except] adds to the trace of its body. *)
Lemma try_except_trace {A : Type} (body : M A) (handler : exception -> M A) :
  snd (try_except body handler) = snd body \/
  exists e, snd (try_except body handler) = (snd body ++ snd (handler e))%list.
Proof.
  destruct body as [[a | e] t]; cbn [try_except snd]; [now left |].
  destruct (is_Exception e); [| now left].
  right. exists e. now destruct (handler e).
Qed.

(** X4.  All that a call of a pipeline does that shows: at most one request
    (no retry), then at most one call of the logger.  A pipeline sends
    nothing to a thread or channel and closes nothing. *)
Theorem pipeline_trace_shape :
  (forall messages : list Message,
      exists posts logs,
        snd (generate_completion_response messages) = (posts ++ logs)%list /\
        (posts = [] \/ exists rendered, posts = [Post (completion_request rendered)]) /\
        (logs = [] \/ exists e, logs = [LogException e]))
  /\
  (forall prompt : Message,
      exists posts logs,
        snd (generate_image_response prompt) = (posts ++ logs)%list /\
        (posts = [] \/ exists prompt', posts = [Post (image_request prompt')]) /\
        (logs = [] \/ exists e, logs = [LogException e])).
Proof.
  split.
  - intros messages. unfold generate_completion_response.
    exists (snd (generate_completion_try messages)).
    destruct (try_except_trace (generate_completion_try messages)
                (fun e => emit (LogException e) ;;;
                          ret {| status := ERROR; reply_text := VNone;
                                 status_text := VStr (str_exception e) |}))
      as [Ht | [e Ht]].
    + exists []. rewrite app_nil_r. repeat split;
        [exact Ht | apply completion_try_trace | now left].
    + exists [LogException e]. repeat split;
        [exact Ht | apply completion_try_trace | right; now exists e].
  - intros prompt. unfold generate_image_response.
    exists (snd (generate_image_try prompt)).
    destruct (try_except_trace (generate_image_try prompt)
                (fun e => emit (LogException e) ;;;
                          ret {| istatus := ERROR; image64 := VNone;
                                 istatus_text := VStr (str_exception e) |}))
      as [Ht | [e Ht]].
    + exists []. rewrite app_nil_r. repeat split;
        [exact Ht | apply image_try_trace | now left].
    + exists [LogException e]. repeat split;
        [exact Ht | apply image_try_trace | right; now exists e].
Qed.

(** The comprehension stops at the first message that does not render. *)
Lemma comprehension_raises (before after : list Message) (m : Message)
  (rendered : list value) (e : exception) :
  renders before rendered ->
  render m = Raise e ->
  comprehension (fun message => lift (render message)) (before ++ m :: after)
  = (Raise e, []).
Proof.
  intros Hr Hm. induction Hr as [| m' v ms vs Hm' _ IH]; cbn [app comprehension].
  - unfold lift at 1. now rewrite Hm.
  - unfold lift at 1. now rewrite Hm', bind_Return_nil, IH.
Qed.

(** Runs the handler of a pipeline on the exception its body raised. *)
Ltac handle He :=
  cbn [try_except]; rewrite He, bind_emit; reflexivity.

(** X5.  When [render()] raises on a message, no request is sent: the
    pipeline logs the exception and returns ERROR with its text.  In the
    completion pipeline this is the first message that does not render;
    the messages after it are not rendered. *)
Theorem render_failure_sends_no_request :
  (forall (before after : list Message) (m : Message) (rendered : list value)
          (e : exception),
      renders before rendered ->
      render m = Raise e ->
      is_Exception e = true ->
      generate_completion_response (before ++ m :: after)
      = (Return {| status := ERROR; reply_text := VNone;
                   status_text := VStr (str_exception e) |},
         [LogException e]))
  /\
  (forall (prompt : Message) (e : exception),
      render prompt = Raise e ->
      is_Exception e = true ->
      generate_image_response prompt
      = (Return {| istatus := ERROR; image64 := VNone;
                   istatus_text := VStr (str_exception e) |},
         [LogException e])).
Proof.
  split.
  - intros before after m rendered e Hr Hm He.
    unfold generate_completion_response, generate_completion_try.
    rewrite (comprehension_raises _ _ _ _ _ Hr Hm), bind_Raise. handle He.
  - intros prompt e Hm He.
    unfold generate_image_response, generate_image_try.
    unfold lift at 1. rewrite Hm, bind_Raise. handle He.
Qed.

(** X6.  A 200 answer whose body cannot be used is an ERROR, logged once:
    a body without the key (['choices'], ['data']) gives the text of the
    KeyError, the repr of the key; an empty list under the key gives
    ["list index out of range"]. *)
Theorem unusable_200_body_is_error :
  (forall (messages : list Message) (rendered : list value)
          (d : list (string * value)),
      renders messages rendered ->
      post (completion_request rendered) = Response 200 (Return (VDict d)) ->
      (dict_get d "choices" = None ->
       generate_completion_response messages
       = (Return {| status := ERROR; reply_text := VNone;
                    status_text := VStr (py_repr (VStr "choices")) |},
          [Post (completion_request rendered);
           LogException (KeyError (KStr "choices"))])) /\
      (dict_get d "choices" = Some (VList []) ->
       generate_completion_response messages
       = (Return {| status := ERROR; reply_text := VNone;
                    status_text := VStr "list index out of range" |},
          [Post (completion_request rendered);
           LogException (IndexError "list index out of range")])))
  /\
  (forall (prompt : Message) (rendered prompt' : value)
          (d : list (string * value)),
      render prompt = Return rendered ->
      get_method rendered "content" (VStr "") = Return prompt' ->
      post (image_request prompt') = Response 200 (Return (VDict d)) ->
      (dict_get d "data" = None ->
       generate_image_response prompt
       = (Return {| istatus := ERROR; image64 := VNone;
                    istatus_text := VStr (py_repr (VStr "data")) |},
          [Post (image_request prompt');
           LogException (KeyError (KStr "data"))])) /\
      (dict_get d "data" = Some (VList []) ->
       generate_image_response prompt
       = (Return {| istatus := ERROR; image64 := VNone;
                    istatus_text := VStr "list index out of range" |},
          [Post (image_request prompt');
           LogException (IndexError "list index out of range")]))).
Proof.
  split.
  - intros messages rendered d Hr Hp.
    unfold generate_completion_response, generate_completion_try.
    rewrite (comprehension_renders _ _ Hr), bind_Return_nil.
    rewrite (session_post_Response _ _ _ Hp), bind_Return.
    cbn [fst snd Z.eqb Pos.eqb]. run_pipeline.
    split; intros Hd; rewrite Hd; run_pipeline; reflexivity.
  - intros prompt rendered prompt' d Hr Hg Hp.
    unfold generate_image_response, generate_image_try.
    rewrite Hr. run_pipeline. rewrite Hg. run_pipeline.
    rewrite (session_post_Response _ _ _ Hp), bind_Return.
    cbn [fst snd Z.eqb Pos.eqb]. run_pipeline.
    split; intros Hd; rewrite Hd; run_pipeline; reflexivity.
Qed.

(** X7.  When [r.json()] raises on the answer, the status of the answer
    plays no part: 200 or not, the pipeline logs the exception and returns
    ERROR with its text. *)
Theorem unreadable_body_is_error_whatever_the_status :
  (forall (messages : list Message) (rendered : list value) (st : Z)
          (e : exception),
      renders messages rendered ->
      post (completion_request rendered) = Response st (Raise e) ->
      is_Exception e = true ->
      generate_completion_response messages
      = (Return {| status := ERROR; reply_text := VNone;
                   status_text := VStr (str_exception e) |},
         [Post (completion_request rendered); LogException e]))
  /\
  (forall (prompt : Message) (rendered prompt' : value) (st : Z)
          (e : exception),
      render prompt = Return rendered ->
      get_method rendered "content" (VStr "") = Return prompt' ->
      post (image_request prompt') = Response st (Raise e) ->
      is_Exception e = true ->
      generate_image_response prompt
      = (Return {| istatus := ERROR; image64 := VNone;
                   istatus_text := VStr (str_exception e) |},
         [Post (image_request prompt'); LogException e])).
Proof.
  split.
  - intros messages rendered st e Hr Hp He.
    unfold generate_completion_response, generate_completion_try.
    rewrite (comprehension_renders _ _ Hr), bind_Return_nil.
    rewrite (session_post_Response _ _ _ Hp), bind_Return.
    cbn [fst snd]. destruct (st =? 200)%Z; run_pipeline; handle He.
  - intros prompt rendered prompt' st e Hr Hg Hp He.
    unfold generate_image_response, generate_image_try.
    rewrite Hr. run_pipeline. rewrite Hg. run_pipeline.
    rewrite (session_post_Response _ _ _ Hp), bind_Return.
    cbn [fst snd]. destruct (st =? 200)%Z; run_pipeline; handle He.
Qed.

(** X8.  An exception of the request that is not an instance of
    [Exception] (a cancelled task) is not caught: the pipeline raises it to
    its caller, and logs nothing. *)
Theorem cancellation_is_not_caught :
  (forall (messages : list Message) (rendered : list value) (e : exception),
      renders messages rendered ->
      post (completion_request rendered) = PostRaises e ->
      is_Exception e = false ->
      generate_completion_response messages
      = (Raise e, [Post (completion_request rendered)]))
  /\
  (forall (prompt : Message) (rendered prompt' : value) (e : exception),
      render prompt = Return rendered ->
      get_method rendered "content" (VStr "") = Return prompt' ->
      post (image_request prompt') = PostRaises e ->
      is_Exception e = false ->
      generate_image_response prompt
      = (Raise e, [Post (image_request prompt')])).
Proof.
  split.
  - intros messages rendered e Hr Hp He.
    unfold generate_completion_response, generate_completion_try.
    rewrite (comprehension_renders _ _ Hr), bind_Return_nil.
    rewrite (session_post_Raises _ _ Hp), bind_Raise.
    cbn [try_except]. now rewrite He.
  - intros prompt rendered prompt' e Hr Hg Hp He.
    unfold generate_image_response, generate_image_try.
    rewrite Hr. run_pipeline. rewrite Hg. run_pipeline.
    rewrite (session_post_Raises _ _ Hp), bind_Raise.
    cbn [try_except]. now rewrite He.
Qed.

End Failures.

Section Renderers.
Context `{E : Env}.

(** X9.  On a result classified ERROR the text renderer sends one notice to
    the thread, [**Error** - ] followed by [str(status_text)] (the text
    itself when it is a str, the repr of the payload when it is one), and
    does nothing else. *)
Theorem text_failure_sends_error_notice
  (thread : Messageable) (d : CompletionData) :
  status d = ERROR ->
  process_response thread d
  = (Return tt,
     [SendEmbed thread
        {| description := "**Error** - " ++ py_str (status_text d);
           color := yellow |}]) /\
  (forall s, status_text d = VStr s ->
             py_str (status_text d) = s) /\
  (forall payload, status_text d = VDict payload ->
                   py_str (status_text d) = py_repr (VDict payload)).
Proof.
  intros H. unfold process_response. rewrite H.
  repeat split; intros ? ->; reflexivity.
Qed.

(** What the loop of the text renderer leaves in the trace. *)
Lemma chunks_trace (thread : Messageable) (chunks : list string) :
  for_each chunks
    (fun r =>
       if (len r >? MAX_CHARS_PER_REPLY_MSG)%Z then
         let file := {| fp := StringIO r; filename := "message.txt" |} in
         emit (SendFile thread file)
       else
         emit (Send thread r))
  = (Return tt,
     map (fun r =>
            if (len r >? MAX_CHARS_PER_REPLY_MSG)%Z
            then SendFile thread {| fp := StringIO r; filename := "message.txt" |}
            else Send thread r)
         chunks).
Proof.
  apply for_each_emit. intros r.
  now destruct (len r >? MAX_CHARS_PER_REPLY_MSG)%Z.
Qed.

(** X10.  Whatever the result, every event of a renderer acts on the thread
    or channel it was given: a renderer sends nothing elsewhere, makes no
    request and logs nothing. *)
Theorem renderers_act_on_their_target_only :
  (forall (thread : Messageable) (d : CompletionData),
      Forall (fun ev => target_of ev = Some thread)
             (snd (process_response thread d)))
  /\
  (forall (channel : Messageable) (d : ImageCompletionData),
      Forall (fun ev => target_of ev = Some channel)
             (snd (process_image_response channel d))).
Proof.
  split.
  - intros thread d. unfold process_response.
    destruct (status d); [| repeat constructor ..].
    destruct (truthy (reply_text d)); cbn [negb]; [| repeat constructor].
    unfold lift.
    destruct (split_into_shorter_messages (reply_text d)) as [chunks | e];
      [| constructor].
    rewrite bind_Return_nil, chunks_trace. cbn [snd].
    apply Forall_map, Forall_forall. intros r _.
    now destruct (len r >? MAX_CHARS_PER_REPLY_MSG)%Z.
  - intros channel d. unfold process_image_response.
    destruct (istatus d); [| repeat constructor ..].
    destruct (truthy (image64 d)); cbn [negb]; [| repeat constructor].
    unfold lift.
    destruct (discord_image (image64 d)) as [file | e]; [| constructor].
    rewrite bind_Return_nil. repeat constructor.
Qed.

(** X11.  The text renderer closes the thread exactly on TOO_LONG, and then
    once; the image renderer never closes anything. *)
Theorem thread_closed_exactly_on_too_long :
  (forall (thread : Messageable) (d : CompletionData),
      count is_close (snd (process_response thread d))
      = match status d with TOO_LONG => 1 | _ => 0 end)
  /\
  (forall (channel : Messageable) (d : ImageCompletionData),
      count is_close (snd (process_image_response channel d)) = 0).
Proof.
  split.
  - intros thread d. unfold process_response.
    destruct (status d); try reflexivity.
    destruct (truthy (reply_text d)); cbn [negb]; [| reflexivity].
    unfold lift.
    destruct (split_into_shorter_messages (reply_text d)) as [chunks | e];
      [| reflexivity].
    rewrite bind_Return_nil, chunks_trace. cbn [snd]. unfold count.
    induction chunks as [| r rs IH]; [reflexivity |].
    cbn [map filter]. now destruct (len r >? MAX_CHARS_PER_REPLY_MSG)%Z.
  - intros channel d. unfold process_image_response.
    destruct (istatus d); try reflexivity.
    destruct (truthy (image64 d)); cbn [negb]; [| reflexivity].
    unfold lift.
    destruct (discord_image (image64 d)) as [file | e]; [| reflexivity].
    now rewrite bind_Return_nil.
Qed.

(** X12.  A renderer catches nothing: when the collaborator it hands an OK
    payload to raises ([split_into_shorter_messages] on the reply,
    [discord_image] on a payload it cannot decode), the renderer raises the
    same exception, and has sent nothing. *)
Theorem renderers_raise_what_collaborators_raise :
  (forall (thread : Messageable) (d : CompletionData) (e : exception),
      status d = OK ->
      truthy (reply_text d) = true ->
      split_into_shorter_messages (reply_text d) = Raise e ->
      process_response thread d = (Raise e, []))
  /\
  (forall (channel : Messageable) (d : ImageCompletionData) (e : exception),
      istatus d = OK ->
      truthy (image64 d) = true ->
      discord_image (image64 d) = Raise e ->
      process_image_response channel d = (Raise e, [])).
Proof.
  split.
  - intros thread d e Hs Ht Hc. unfold process_response.
    now rewrite Hs, Ht, Hc.
  - intros channel d e Hs Ht Hc. unfold process_image_response.
    now rewrite Hs, Ht, Hc.
Qed.

End Renderers.

Section EndToEnd.
Context `{E : Env}.

(** The [try] blocks on the answers the endpoints are specified to give. *)
Lemma completion_try_on_error
  (messages : list Message) (rendered : list value) (st : Z) (js code : value) :
  renders messages rendered ->
  post (completion_request rendered) = Response st (Return js) ->
  st <> 200%Z ->
  error_body js code ->
  generate_completion_try messages
  = (Return {| status := if eq_str code context_length_exceeded
                         then TOO_LONG else ERROR;
               reply_text := VNone; status_text := js |},
     [Post (completion_request rendered)]).
Proof.
  intros Hr Hp Hst (d & err & -> & Herr & Hcode).
  apply Z.eqb_neq in Hst. unfold generate_completion_try.
  rewrite (comprehension_renders _ _ Hr), bind_Return_nil.
  rewrite (session_post_Response _ _ _ Hp), bind_Return.
  cbn [fst snd]. rewrite Hst.
  run_pipeline. rewrite Herr. run_pipeline. rewrite Hcode. run_pipeline.
  reflexivity.
Qed.

Lemma image_try_on_error
  (prompt : Message) (rendered prompt' : value) (st : Z) (js code : value) :
  render prompt = Return rendered ->
  get_method rendered "content" (VStr "") = Return prompt' ->
  post (image_request prompt') = Response st (Return js) ->
  st <> 200%Z ->
  error_body js code ->
  generate_image_try prompt
  = (Return {| istatus := if eq_str code context_length_exceeded
                          then TOO_LONG else ERROR;
               image64 := VNone; istatus_text := js |},
     [Post (image_request prompt')]).
Proof.
  intros Hr Hg Hp Hst (d & err & -> & Herr & Hcode).
  apply Z.eqb_neq in Hst. unfold generate_image_try.
  rewrite Hr. run_pipeline. rewrite Hg. run_pipeline.
  rewrite (session_post_Response _ _ _ Hp), bind_Return.
  cbn [fst snd]. rewrite Hst.
  run_pipeline. rewrite Herr. run_pipeline. rewrite Hcode. run_pipeline.
  reflexivity.
Qed.

Lemma completion_try_on_choices
  (messages : list Message) (rendered : list value) (js content : value) :
  renders messages rendered ->
  post (completion_request rendered) = Response 200 (Return js) ->
  choices_body js content ->
  generate_completion_try messages
  = (Return {| status := OK; reply_text := content; status_text := VNone |},
     [Post (completion_request rendered)]).
Proof.
  intros Hr Hp (d & choice & rest & message & -> & Hc & Hm & Hcontent).
  unfold generate_completion_try.
  rewrite (comprehension_renders _ _ Hr), bind_Return_nil.
  rewrite (session_post_Response _ _ _ Hp), bind_Return.
  cbn [fst snd Z.eqb Pos.eqb].
  run_pipeline. rewrite Hc. run_pipeline.
  cbn [seq_index List.length Z.leb Z.ltb Z.compare Z.of_nat andb Z.to_nat
       nth_error Pos.of_succ_nat].
  run_pipeline. rewrite Hm. run_pipeline. rewrite Hcontent. run_pipeline.
  reflexivity.
Qed.

Lemma image_try_on_data
  (prompt : Message) (rendered prompt' js b64 : value) :
  render prompt = Return rendered ->
  get_method rendered "content" (VStr "") = Return prompt' ->
  post (image_request prompt') = Response 200 (Return js) ->
  data_body js b64 ->
  generate_image_try prompt
  = (Return {| istatus := OK; image64 := b64; istatus_text := VNone |},
     [Post (image_request prompt')]).
Proof.
  intros Hr Hg Hp (d & item & rest & -> & Hd & Hb).
  unfold generate_image_try.
  rewrite Hr. run_pipeline. rewrite Hg. run_pipeline.
  rewrite (session_post_Response _ _ _ Hp), bind_Return.
  cbn [fst snd Z.eqb Pos.eqb].
  run_pipeline. rewrite Hd. run_pipeline.
  cbn [seq_index List.length Z.leb Z.ltb Z.compare Z.of_nat andb Z.to_nat
       nth_error Pos.of_succ_nat].
  run_pipeline. rewrite Hb. run_pipeline.
  reflexivity.
Qed.

(** Hands the result of a [try] block that returned to the renderer. *)
Ltac hand_over Htry :=
  rewrite Htry; cbn [try_except]; rewrite bind_Return; cbn [fst snd app].

(** X13.  A conversation that outgrew the context, from request to thread:
    when the completion endpoint rejects the request with the code
    ['context_length_exceeded'], rendering the result of the pipeline
    closes the thread and sends nothing to it. *)
Theorem context_overflow_closes_the_thread
  (thread : Messageable) (messages : list Message) (rendered : list value)
  (st : Z) (js : value) :
  renders messages rendered ->
  post (completion_request rendered) = Response st (Return js) ->
  st <> 200%Z ->
  error_body js (VStr "context_length_exceeded") ->
  (d <- generate_completion_response messages ;; process_response thread d)
  = (Return tt, [Post (completion_request rendered); CloseThread thread]).
Proof.
  intros Hr Hp Hst Hb. unfold generate_completion_response.
  hand_over (completion_try_on_error _ _ _ _ _ Hr Hp Hst Hb).
  reflexivity.
Qed.

(** X14.  Any other rejection, from request to notice: the notice shows the
    repr of the whole error payload.  For the completion this is a
    rejection with a code other than ['context_length_exceeded']; for the
    image it is every rejection, that code included. *)
Theorem rejection_is_shown_as_payload_repr :
  (forall (thread : Messageable) (messages : list Message)
          (rendered : list value) (st : Z) (js code : value),
      renders messages rendered ->
      post (completion_request rendered) = Response st (Return js) ->
      st <> 200%Z ->
      error_body js code ->
      code <> VStr "context_length_exceeded" ->
      (d <- generate_completion_response messages ;; process_response thread d)
      = (Return tt,
         [Post (completion_request rendered);
          SendEmbed thread {| description := "**Error** - " ++ py_repr js;
                              color := yellow |}]))
  /\
  (forall (channel : Messageable) (prompt : Message) (rendered prompt' : value)
          (st : Z) (js code : value),
      render prompt = Return rendered ->
      get_method rendered "content" (VStr "") = Return prompt' ->
      post (image_request prompt') = Response st (Return js) ->
      st <> 200%Z ->
      error_body js code ->
      (d <- generate_image_response prompt ;; process_image_response channel d)
      = (Return tt,
         [Post (image_request prompt');
          SendEmbed channel {| description := "**Error** - " ++ py_repr js;
                               color := yellow |}])).
Proof.
  split.
  - intros thread messages rendered st js code Hr Hp Hst Hb Hc.
    unfold generate_completion_response.
    hand_over (completion_try_on_error _ _ _ _ _ Hr Hp Hst Hb).
    apply (eq_str_false code context_length_exceeded) in Hc. rewrite Hc.
    destruct Hb as (d & _ & -> & _). reflexivity.
  - intros channel prompt rendered prompt' st js code Hr Hg Hp Hst Hb.
    unfold generate_image_response.
    hand_over (image_try_on_error _ _ _ _ _ _ Hr Hg Hp Hst Hb).
    destruct Hb as (d & _ & -> & _).
    now destruct (eq_str code context_length_exceeded).
Qed.

(** X15.  An exception, from pipeline to notice: when the [try] block of a
    pipeline raises an instance of [Exception], rendering the result logs
    it and then sends the notice [**Error** - ] followed by [str(e)]. *)
Theorem exception_is_shown_as_its_text :
  (forall (thread : Messageable) (messages : list Message) (e : exception)
          (t : list event),
      generate_completion_try messages = (Raise e, t) ->
      is_Exception e = true ->
      (d <- generate_completion_response messages ;; process_response thread d)
      = (Return tt,
         (t ++ [LogException e;
                SendEmbed thread
                  {| description := "**Error** - " ++ str_exception e;
                     color := yellow |}])%list))
  /\
  (forall (channel : Messageable) (prompt : Message) (e : exception)
          (t : list event),
      generate_image_try prompt = (Raise e, t) ->
      is_Exception e = true ->
      (d <- generate_image_response prompt ;; process_image_response channel d)
      = (Return tt,
         (t ++ [LogException e;
                SendEmbed channel
                  {| description := "**Error** - " ++ str_exception e;
                     color := yellow |}])%list)).
Proof.
  split.
  - intros thread messages e t H He. unfold generate_completion_response.
    rewrite H. cbn [try_except]. rewrite He, bind_emit. cbn [fst snd ret].
    rewrite bind_Return. cbn. now rewrite <- app_assoc.
  - intros channel prompt e t H He. unfold generate_image_response.
    rewrite H. cbn [try_except]. rewrite He, bind_emit. cbn [fst snd ret].
    rewrite bind_Return. cbn. now rewrite <- app_assoc.
Qed.

(** X16.  An empty answer, from request to notice: when the endpoint
    answers 200 with a well-formed body whose payload is false (the empty
    string, a JSON null), rendering the result of the pipeline sends the
    notice [**Invalid response** - empty response] and nothing else. *)
Theorem empty_answer_is_shown_as_invalid :
  (forall (thread : Messageable) (messages : list Message)
          (rendered : list value) (js content : value),
      renders messages rendered ->
      post (completion_request rendered) = Response 200 (Return js) ->
      choices_body js content ->
      truthy content = false ->
      (d <- generate_completion_response messages ;; process_response thread d)
      = (Return tt,
         [Post (completion_request rendered);
          SendEmbed thread
            {| description := "**Invalid response** - empty response";
               color := yellow |}]))
  /\
  (forall (channel : Messageable) (prompt : Message)
          (rendered prompt' js b64 : value),
      render prompt = Return rendered ->
      get_method rendered "content" (VStr "") = Return prompt' ->
      post (image_request prompt') = Response 200 (Return js) ->
      data_body js b64 ->
      truthy b64 = false ->
      (d <- generate_image_response prompt ;; process_image_response channel d)
      = (Return tt,
         [Post (image_request prompt');
          SendEmbed channel
            {| description := "**Invalid response** - empty response";
               color := yellow |}])).
Proof.
  split.
  - intros thread messages rendered js content Hr Hp Hb Ht.
    unfold generate_completion_response.
    hand_over (completion_try_on_choices _ _ _ _ Hr Hp Hb).
    unfold process_response. cbn [status reply_text]. now rewrite Ht.
  - intros channel prompt rendered prompt' js b64 Hr Hg Hp Hb Ht.
    unfold generate_image_response.
    hand_over (image_try_on_data _ _ _ _ _ Hr Hg Hp Hb).
    unfold process_image_response. cbn [istatus image64]. now rewrite Ht.
Qed.

(** X17.  A reply, from request to thread or channel: on a 200 answer with
    a non-empty str as payload, rendering the result of the completion
    pipeline sends the chunks of the reply in order (a file for a chunk
    longer than [MAX_CHARS_PER_REPLY_MSG], a message otherwise), and
    rendering the result of the image pipeline sends the one decoded
    file.  Nothing is logged. *)
Theorem answer_is_delivered :
  (forall (thread : Messageable) (messages : list Message)
          (rendered : list value) (js : value) (s : string)
          (chunks : list string),
      renders messages rendered ->
      post (completion_request rendered) = Response 200 (Return js) ->
      choices_body js (VStr s) ->
      s <> "" ->
      split_into_shorter_messages (VStr s) = Return chunks ->
      (d <- generate_completion_response messages ;; process_response thread d)
      = (Return tt,
         Post (completion_request rendered)
         :: map (fun r =>
                   if (len r >? MAX_CHARS_PER_REPLY_MSG)%Z
                   then SendFile thread
                          {| fp := StringIO r; filename := "message.txt" |}
                   else Send thread r)
                chunks))
  /\
  (forall (channel : Messageable) (prompt : Message)
          (rendered prompt' js : value) (b64 : string) (file : File),
      render prompt = Return rendered ->
      get_method rendered "content" (VStr "") = Return prompt' ->
      post (image_request prompt') = Response 200 (Return js) ->
      data_body js (VStr b64) ->
      b64 <> "" ->
      discord_image (VStr b64) = Return file ->
      (d <- generate_image_response prompt ;; process_image_response channel d)
      = (Return tt, [Post (image_request prompt'); SendFile channel file])).
Proof.
  split.
  - intros thread messages rendered js s chunks Hr Hp Hb Hne Hsplit.
    unfold generate_completion_response.
    hand_over (completion_try_on_choices _ _ _ _ Hr Hp Hb).
    unfold process_response. cbn [status reply_text truthy].
    apply String.eqb_neq in Hne. rewrite Hne. cbn [negb].
    rewrite Hsplit. unfold lift. now rewrite bind_Return_nil, chunks_trace.
  - intros channel prompt rendered prompt' js b64 file Hr Hg Hp Hb Hne Hd.
    unfold generate_image_response.
    hand_over (image_try_on_data _ _ _ _ _ Hr Hg Hp Hb).
    unfold process_image_response. cbn [istatus image64 truthy].
    apply String.eqb_neq in Hne. rewrite Hne. cbn [negb].
    rewrite Hd. unfold lift. now rewrite bind_Return_nil.
Qed.

(** X18.  The prompt of the image request is the value under ['content']
    in the mapping [render()] returns, as it is: the pipeline does not
    check that it is a str, and issues its one request with it. *)
Theorem content_is_the_prompt_as_it_is
  (prompt : Message) (d : list (string * value)) (content : value) :
  render prompt = Return (VDict d) ->
  dict_get d "content" = Some content ->
  getitem (json (image_request content)) (KStr "prompt") = Return content /\
  exists o t,
    generate_image_response prompt = (o, Post (image_request content) :: t) /\
    count is_post t = 0.
Proof.
  intros Hr Hd. split; [reflexivity |].
  unfold generate_image_response.
  assert (Htry : snd (generate_image_try prompt) = [Post (image_request content)]).
  { unfold generate_image_try. rewrite Hr. unfold lift at 1.
    rewrite bind_Return_nil. cbn [get_method]. rewrite Hd. unfold lift at 1.
    rewrite bind_Return_nil, bind_trace_before.
    - apply session_post_trace.
    - intros r. destruct (fst r =? 200)%Z;
        repeat (apply bind_silent; [try reflexivity | intros ?]); reflexivity. }
  destruct (generate_image_try prompt) as [[r | e] t]; cbn [snd] in Htry; subst t;
    cbn [try_except].
  - now exists (Return r), [].
  - destruct (is_Exception e).
    + rewrite bind_emit. cbn [fst snd ret app]. now eexists _, _.
    + now exists (Raise e), [].
Qed.

End EndToEnd.

(** * The further properties at work in the sample worlds *)

Section FurtherWitnesses.
Import Sample.

Lemma image_ok_is_first_item_payload_witness :
  generate_image_response (E := image_world (VStr "aGk=")) (user "hi")
  = (Return {| istatus := OK; image64 := VStr "aGk="; istatus_text := VNone |},
     [Post (image_request (E := image_world (VStr "aGk=")) (VStr "hi"))]).
Proof.
  apply (@image_ok_is_first_item_payload (image_world (VStr "aGk="))
           (user "hi") hi_wire (VStr "hi") (data_payload (VStr "aGk="))).
  - reflexivity.
  - reflexivity.
  - reflexivity.
  - do 3 eexists. repeat split; reflexivity.
Defined.

Lemma too_long_only_from_error_code_witness :
  exists rendered st,
    renders (E := too_long_world) [user "hi"] rendered /\
    st <> 200%Z /\
    post (Env := too_long_world) (completion_request (E := too_long_world) rendered)
    = Response st (Return (error_payload too_long)).
Proof.
  destruct (proj1 (@too_long_only_from_error_code too_long_world) [user "hi"]
              {| status := TOO_LONG; reply_text := VNone;
                 status_text := error_payload too_long |}
              [Post (completion_request (E := too_long_world) [hi_wire])]
              eq_refl eq_refl)
    as (rendered & st & Hr & Hst & Hp & _).
  now exists rendered, st.
Defined.

Lemma ok_only_from_well_formed_200_witness :
  exists rendered js,
    renders (E := reply_world (VStr "hello")) [user "hi"] rendered /\
    post (Env := reply_world (VStr "hello"))
      (completion_request (E := reply_world (VStr "hello")) rendered)
    = Response 200 (Return js) /\
    choices_body js (VStr "hello").
Proof.
  destruct (proj1 (@ok_only_from_well_formed_200 (reply_world (VStr "hello")))
              [user "hi"]
              {| status := OK; reply_text := VStr "hello"; status_text := VNone |}
              [Post (completion_request (E := reply_world (VStr "hello")) [hi_wire])]
              eq_refl eq_refl)
    as (rendered & js & Hr & Hp & Hb & _).
  now exists rendered, js.
Defined.

(** The second of three messages does not render: the third is not looked
    at, nothing is posted. *)
Lemma render_failure_sends_no_request_witness :
  generate_completion_response (E := reply_world (VStr "hello"))
    [user "hi"; broken; user "later"]
  = (Return {| status := ERROR; reply_text := VNone;
               status_text := VStr "no author" |},
     [LogException (OtherException "ValueError" "no author")]).
Proof.
  apply (proj1 (@render_failure_sends_no_request (reply_world (VStr "hello")))
           [user "hi"] [user "later"] broken [hi_wire]
           (OtherException "ValueError" "no author")).
  - repeat constructor.
  - reflexivity.
  - reflexivity.
Defined.

Lemma unusable_200_body_is_error_witness :
  generate_completion_response (E := empty_choices_world) [user "hi"]
  = (Return {| status := ERROR; reply_text := VNone;
               status_text := VStr "list index out of range" |},
     [Post (completion_request (E := empty_choices_world) [hi_wire]);
      LogException (IndexError "list index out of range")]).
Proof.
  apply (proj1 (@unusable_200_body_is_error empty_choices_world)
           [user "hi"] [hi_wire] [("choices", VList [])]).
  - repeat constructor.
  - reflexivity.
  - reflexivity.
Defined.

Lemma unreadable_body_is_error_whatever_the_status_witness :
  generate_completion_response (E := unreadable_world) [user "hi"]
  = (Return {| status := ERROR; reply_text := VNone;
               status_text := VStr "unexpected mimetype: text/html" |},
     [Post (completion_request (E := unreadable_world) [hi_wire]);
      LogException html_error]).
Proof.
  apply (proj1 (@unreadable_body_is_error_whatever_the_status unreadable_world)
           [user "hi"] [hi_wire] 502%Z html_error).
  - repeat constructor.
  - reflexivity.
  - reflexivity.
Defined.

Lemma cancellation_is_not_caught_witness :
  generate_completion_response (E := cancelled_world) [user "hi"]
  = (Raise (OnlyBaseException "CancelledError" ""),
     [Post (completion_request (E := cancelled_world) [hi_wire])]).
Proof.
  apply (proj1 (@cancellation_is_not_caught cancelled_world)
           [user "hi"] [hi_wire] (OnlyBaseException "CancelledError" "")).
  - repeat constructor.
  - reflexivity.
  - reflexivity.
Defined.

Lemma text_failure_sends_error_notice_witness :
  process_response (E := unreachable_world) 7%Z
    {| status := ERROR; reply_text := VNone;
       status_text := VStr "Cannot connect to host" |}
  = (Return tt,
     [SendEmbed 7%Z {| description := "**Error** - Cannot connect to host";
                       color := yellow |}]).
Proof.
  exact (proj1 (@text_failure_sends_error_notice unreachable_world 7%Z
                  {| status := ERROR; reply_text := VNone;
                     status_text := VStr "Cannot connect to host" |}
                  eq_refl)).
Defined.

(** A payload that is a number: true, and not decodable. *)
Lemma renderers_raise_what_collaborators_raise_witness :
  process_image_response (E := image_world (VInt 5)) 7%Z
    {| istatus := OK; image64 := VInt 5; istatus_text := VNone |}
  = (Raise (TypeError "argument should be a bytes-like object or ASCII string"),
     []).
Proof.
  exact (proj2 (@renderers_raise_what_collaborators_raise (image_world (VInt 5)))
           7%Z {| istatus := OK; image64 := VInt 5; istatus_text := VNone |}
           (TypeError "argument should be a bytes-like object or ASCII string")
           eq_refl eq_refl eq_refl).
Defined.

Lemma context_overflow_closes_the_thread_witness :
  (d <- generate_completion_response (E := too_long_world) [user "hi"] ;;
   process_response (E := too_long_world) 7%Z d)
  = (Return tt,
     [Post (completion_request (E := too_long_world) [hi_wire]); CloseThread 7%Z]).
Proof.
  apply (@context_overflow_closes_the_thread too_long_world 7%Z [user "hi"]
           [hi_wire] 400%Z (error_payload too_long)).
  - repeat constructor.
  - reflexivity.
  - discriminate.
  - do 2 eexists. repeat split; reflexivity.
Defined.

(** The same rejection on the two paths. *)
Lemma rejection_is_shown_as_payload_repr_witness :
  (d <- generate_completion_response (E := rate_limited_world) [user "hi"] ;;
   process_response (E := rate_limited_world) 7%Z d)
  = (Return tt,
     [Post (completion_request (E := rate_limited_world) [hi_wire]);
      SendEmbed 7%Z
        {| description :=
             "**Error** - {'error': {'message': 'rejected', 'code': 'rate_limit_exceeded'}}";
           color := yellow |}])
  /\
  (d <- generate_image_response (E := too_long_world) (user "hi") ;;
   process_image_response (E := too_long_world) 7%Z d)
  = (Return tt,
     [Post (image_request (E := too_long_world) (VStr "hi"));
      SendEmbed 7%Z
        {| description :=
             "**Error** - {'error': {'message': 'rejected', 'code': 'context_length_exceeded'}}";
           color := yellow |}]).
Proof.
  split.
  - apply (proj1 (@rejection_is_shown_as_payload_repr rate_limited_world)
             7%Z [user "hi"] [hi_wire] 429%Z
             (error_payload (VStr "rate_limit_exceeded"))
             (VStr "rate_limit_exceeded")).
    + repeat constructor.
    + reflexivity.
    + discriminate.
    + do 2 eexists. repeat split; reflexivity.
    + discriminate.
  - apply (proj2 (@rejection_is_shown_as_payload_repr too_long_world)
             7%Z (user "hi") hi_wire (VStr "hi") 400%Z
             (error_payload too_long) too_long).
    + reflexivity.
    + reflexivity.
    + reflexivity.
    + discriminate.
    + do 2 eexists. repeat split; reflexivity.
Defined.

Lemma exception_is_shown_as_its_text_witness :
  (d <- generate_completion_response (E := unreachable_world) [user "hi"] ;;
   process_response (E := unreachable_world) 7%Z d)
  = (Return tt,
     [Post (completion_request (E := unreachable_world) [hi_wire]);
      LogException (OtherException "ClientConnectorError" "Cannot connect to host");
      SendEmbed 7%Z {| description := "**Error** - Cannot connect to host";
                       color := yellow |}]).
Proof.
  exact (proj1 (@exception_is_shown_as_its_text unreachable_world)
           7%Z [user "hi"]
           (OtherException "ClientConnectorError" "Cannot connect to host")
           [Post (completion_request (E := unreachable_world) [hi_wire])]
           eq_refl eq_refl).
Defined.

(** A null content. *)
Lemma empty_answer_is_shown_as_invalid_witness :
  (d <- generate_completion_response (E := reply_world VNone) [user "hi"] ;;
   process_response (E := reply_world VNone) 7%Z d)
  = (Return tt,
     [Post (completion_request (E := reply_world VNone) [hi_wire]);
      SendEmbed 7%Z {| description := "**Invalid response** - empty response";
                       color := yellow |}]).
Proof.
  apply (proj1 (@empty_answer_is_shown_as_invalid (reply_world VNone))
           7%Z [user "hi"] [hi_wire] (choices_payload VNone) VNone).
  - repeat constructor.
  - reflexivity.
  - do 4 eexists. repeat split; reflexivity.
  - reflexivity.
Defined.

(** A reply with a word of 3 characters in 6 bytes, under a limit of 4. *)
Lemma answer_is_delivered_witness :
  (d <- generate_completion_response (E := reply_world (VStr "hi три there"))
          [user "hi"] ;;
   process_response (E := reply_world (VStr "hi три there")) 7%Z d)
  = (Return tt,
     [Post (completion_request (E := reply_world (VStr "hi три there")) [hi_wire]);
      Send 7%Z "hi";
      Send 7%Z "три";
      SendFile 7%Z {| fp := StringIO "there"; filename := "message.txt" |}]).
Proof.
  apply (proj1 (@answer_is_delivered (reply_world (VStr "hi три there")))
           7%Z [user "hi"] [hi_wire] (choices_payload (VStr "hi три there"))
           "hi три there" ["hi"; "три"; "there"]).
  - repeat constructor.
  - reflexivity.
  - do 4 eexists. repeat split; reflexivity.
  - discriminate.
  - reflexivity.
Defined.

(** A content that is a number goes into the request as it is. *)
Lemma content_is_the_prompt_as_it_is_witness :
  exists o t,
    generate_image_response (E := image_world (VStr "aGk="))
      (Return (VDict [("content", VInt 5)]))
    = (o, Post (image_request (E := image_world (VStr "aGk=")) (VInt 5)) :: t) /\
    count is_post t = 0.
Proof.
  apply (@content_is_the_prompt_as_it_is (image_world (VStr "aGk="))
           (Return (VDict [("content", VInt 5)])) [("content", VInt 5)] (VInt 5)).
  - reflexivity.
  - reflexivity.
Defined.

End FurtherWitnesses.
